(** * nyx: model queue, deep copies and train/test accessors

    A shallow embedding of the glue code of [nyx/analysis.py],
    [nyx/modelling/model.py], [nyx/modelling/util.py] and
    [nyx/modelling/unsupervised_models.py].

    Python objects live in a store and are referred to by location, so that
    the aliasing between an object, its dataframes and its two model
    dictionaries is the one the Python code has.  Methods are computations in
    a state-and-exception monad over that store. *)

From Stdlib Require Import QArith.
From stdpp Require Import gmap strings list fin_maps.

Local Open Scope list_scope.

(** ** Python values *)

(** References into the store. *)
Abbreviation loc := nat.

(** The exceptions the embedded code can raise.  [Dangling] is not a Python
    exception: it is the answer of the model when a reference does not point
    into the store, which well-formed worlds exclude. *)
Inductive exn :=
| ValueError (msg : string)
| AttributeError (msg : string)
| KeyError (key : string)
| TypeError (msg : string)
| RuntimeError (msg : string)
| Dangling (l : loc).

Inductive Outcome (A : Type) :=
| Ok (a : A)
| Raise (e : exn).
Arguments Ok {A} a.
Arguments Raise {A} e.

(** *** Insertion-ordered dictionaries with string keys *)

Definition pydict (V : Type) := list (string * V).

Definition dict_keys {V} (d : pydict V) : list string := d.*1.

Definition dict_values {V} (d : pydict V) : list V := d.*2.

Fixpoint dict_get {V} (k : string) (d : pydict V) : option V :=
  match d with
  | [] => None
  | (k', v) :: d' => if decide (k' = k) then Some v else dict_get k d'
  end.

Definition dict_contains {V} (k : string) (d : pydict V) : bool :=
  bool_decide (k ∈ dict_keys d).

(** [d[k] = v]: an existing key keeps its position, a new key goes last. *)
Fixpoint dict_set {V} (k : string) (v : V) (d : pydict V) : pydict V :=
  match d with
  | [] => [(k, v)]
  | (k', v') :: d' =>
      if decide (k' = k) then (k, v) :: d' else (k', v') :: dict_set k v d'
  end.

(** [del d[k]]: [None] stands for the [KeyError] of a missing key. *)
Fixpoint dict_del {V} (k : string) (d : pydict V) : option (pydict V) :=
  match d with
  | [] => None
  | (k', v') :: d' =>
      if decide (k' = k) then Some d'
      else cons (k', v') <$> dict_del k d'
  end.

(** What Python guarantees of every dictionary: keys are unique. *)
Definition dict_wf {V} (d : pydict V) : Prop := NoDup (dict_keys d).

(** *** Lists *)

(** [l.remove(x)]: drops the first occurrence, [None] stands for the
    [ValueError] raised when [x] does not occur. *)
Fixpoint list_remove (x : string) (l : list string) : option (list string) :=
  match l with
  | [] => None
  | y :: l' => if decide (y = x) then Some l' else cons y <$> list_remove x l'
  end.

(** [needle in haystack] on strings. *)
Fixpoint str_contains (needle haystack : string) : bool :=
  String.prefix needle haystack ||
  match haystack with
  | EmptyString => false
  | String _ rest => str_contains needle rest
  end.

(** The double-quote character, for messages that contain it. *)
Definition dquote : string := String (Ascii.ascii_of_nat 34) EmptyString.

(** Truthiness of a string: [if s:]. *)
Definition truthy (s : string) : bool := negb (bool_decide (s = EmptyString)).

(** ** Dataframes

    The dataframe engine is an external library.  The embedding keeps what the
    glue code relies on: a dataframe is a sequence of named columns, labels
    may repeat, [df[c] = v] overwrites every column labelled [c] or appends a
    new last column, and [df.copy()] is a new dataframe with the same
    content. *)

Section Frames.
Context {Series : Type}.

Definition DataFrame := list (string * Series).

(** [df.columns.tolist()] *)
Definition df_columns (df : DataFrame) : list string := df.*1.

(** [df[c]]; [None] stands for [KeyError].  For a label that several columns
    carry the engine returns a dataframe of these columns, which the model
    does not have: [df_getitem] reads the first of them, and is what the
    engine does on dataframes whose labels are distinct. *)
Definition df_getitem (c : string) (df : DataFrame) : option Series :=
  dict_get c df.

(** [df[c] = v], for a value [v] the engine accepts.  The engine rejects a
    sequence that has not one entry for every row; rows are not part of the
    model of a dataframe. *)
Definition df_setitem (c : string) (v : Series) (df : DataFrame) : DataFrame :=
  if bool_decide (c ∈ df_columns df)
  then fmap (λ col : string * Series, if decide (col.1 = c) then (c, v) else col) df
  else df ++ [(c, v)].

(** [df[cols]]: the listed columns in the listed order. *)
Fixpoint df_select (cols : list string) (df : DataFrame) : option DataFrame :=
  match cols with
  | [] => Some []
  | c :: cols' =>
      match df_getitem c df, df_select cols' df with
      | Some s, Some rest => Some ((c, s) :: rest)
      | _, _ => None
      end
  end.

(** What [df[c] = value] does to a dataframe [df], giving [df']: the column
    [c] reads as [value], every other column reads as before, and the labels
    are the old ones, followed by [c] when no column had that label. *)
Definition column_assigned (c : string) (value : Series)
    (df df' : DataFrame) : Prop :=
  df_getitem c df' = Some value
  ∧ (∀ c', c' ≠ c → df_getitem c' df' = df_getitem c' df)
  ∧ df_columns df' =
    if bool_decide (c ∈ df_columns df) then df_columns df else df_columns df ++ [c].

End Frames.
Arguments DataFrame : clear implicits.

(** The number of rows of a column.  The engine stores a sequence as a column
    of a dataframe when it has one entry for every row of the dataframe, and
    raises [ValueError] when it has not. *)
Class RowCount (Series : Type) := rows : Series → nat.

(** [value] has the rows of the dataframe [df]: the assignment
    [df[c] = value] is one the engine accepts. *)
Definition fits_rows {Series : Type} `{!RowCount Series} (value : Series)
    (df : DataFrame Series) : Prop :=
  Forall (λ col : string * Series, rows col.2 = rows value) df.

(** ** Classes, objects and the store *)

(** The three classes of the repository that carry train and test data.
    [Unsupervised] derives from [ModelBase] and then [Analysis], so a method
    both define resolves to the one of [ModelBase]. *)
Inductive Class := Analysis | ModelBase | Unsupervised.

Global Instance Class_eq_dec : EqDecision Class.
Proof. solve_decision. Defined.

(** [type(self).__name__] *)
Definition class_name (c : Class) : string :=
  match c with
  | Analysis => "Analysis"
  | ModelBase => "ModelBase"
  | Unsupervised => "Unsupervised"
  end.

(** A method decorated with [add_to_queue]: its [__name__] and the defaults
    of its [model_name] and [run] parameters, which [get_default_args] reads
    off its signature. *)
Record ModelFn := mkModelFn {
  fn_name : string;
  fn_default_model_name : string;
  fn_default_run : bool;
}.

(** The decorated methods of [Unsupervised]. *)
Definition KMeans : ModelFn := mkModelFn "KMeans" "km" true.
Definition DBScan : ModelFn := mkModelFn "DBScan" "dbs" true.
Definition IsolationForest : ModelFn := mkModelFn "IsolationForest" "iso_forest" true.
Definition OneClassSVM : ModelFn := mkModelFn "OneClassSVM" "ocsvm" true.

(** The attributes [ModelBase.__init__] adds to those of [Analysis]. *)
Record ModelAttrs := mkModelAttrs {
  _models : loc;
  _queued_models : loc;
  exp_name : string;
  test_split_percentage : Q;
}.

Record Obj := mkObj {
  cls : Class;
  x_train : loc;
  x_test : option loc;
  target : string;
  target_mapping : option (list (string * Z));
  model_attrs : option ModelAttrs;
}.

(** What the data of the wrapped libraries looks like to the glue code:
    column contents, the extra arguments of a training method, and trained
    results, which carry the name they were trained under. *)
Class Data := {
  Series : Type;
  Args : Type;
  Result : Type;
  model_name : Result → string;
}.

Section Store.
Context `{Data}.

(** [partial(getattr(self, model_function.__name__), args, kwargs)]:
    the bound decorated method together with the frozen arguments, among
    them the keywords [run] and [model_name]. *)
Record Closure := mkClosure {
  c_self : loc;
  c_fn : ModelFn;
  c_args : Args;
  c_run : bool;
  c_model_name : string;
}.

(** The store.  [trained] is a log of the training methods entered, as
    pairs of method name and model name, kept to state that a call trains
    nothing. *)
Record World := mkWorld {
  frames : gmap loc (DataFrame Series);
  model_dicts : gmap loc (pydict Result);
  queue_dicts : gmap loc (pydict Closure);
  objects : gmap loc Obj;
  stdout : list string;
  trained : list (string * string);
}.

Definition with_frames (f : gmap loc (DataFrame Series)) (w : World) : World :=
  mkWorld f (model_dicts w) (queue_dicts w) (objects w) (stdout w) (trained w).

Definition with_model_dicts (m : gmap loc (pydict Result)) (w : World) : World :=
  mkWorld (frames w) m (queue_dicts w) (objects w) (stdout w) (trained w).

Definition with_queue_dicts (q : gmap loc (pydict Closure)) (w : World) : World :=
  mkWorld (frames w) (model_dicts w) q (objects w) (stdout w) (trained w).

Definition with_objects (o : gmap loc Obj) (w : World) : World :=
  mkWorld (frames w) (model_dicts w) (queue_dicts w) o (stdout w) (trained w).

Definition with_stdout (s : list string) (w : World) : World :=
  mkWorld (frames w) (model_dicts w) (queue_dicts w) (objects w) s (trained w).

Definition with_trained (t : list (string * string)) (w : World) : World :=
  mkWorld (frames w) (model_dicts w) (queue_dicts w) (objects w) (stdout w) t.

(** ** The monad of methods: a store is threaded, an exception ends the
    computation and leaves the store as it was when it was raised. *)
Definition M (A : Type) : Type := World → Outcome A * World.

Definition raise {A} (e : exn) : M A := λ w, (Raise e, w).

Global Instance M_ret : MRet M := λ A a w, (Ok a, w).

Global Instance M_bind : MBind M := λ A B k m w,
  match m w with
  | (Ok a, w') => k a w'
  | (Raise e, w') => (Raise e, w')
  end.

(** *** Primitive accesses to the store *)

Definition get_world : M World := λ w, (Ok w, w).

Definition print (line : string) : M () :=
  λ w, (Ok (), with_stdout (stdout w ++ [line]) w).

Definition log_training (fn mname : string) : M () :=
  λ w, (Ok (), with_trained (trained w ++ [(fn, mname)]) w).

Definition read_obj (l : loc) : M Obj :=
  λ w, match objects w !! l with
       | Some o => (Ok o, w)
       | None => (Raise (Dangling l), w)
       end.

Definition write_obj (l : loc) (o : Obj) : M () :=
  λ w, (Ok (), with_objects (<[l := o]> (objects w)) w).

Definition alloc_obj (o : Obj) : M loc :=
  λ w, let l := fresh (dom (objects w)) in
       (Ok l, with_objects (<[l := o]> (objects w)) w).

Definition read_frame (l : loc) : M (DataFrame Series) :=
  λ w, match frames w !! l with
       | Some df => (Ok df, w)
       | None => (Raise (Dangling l), w)
       end.

Definition write_frame (l : loc) (df : DataFrame Series) : M () :=
  λ w, (Ok (), with_frames (<[l := df]> (frames w)) w).

Definition alloc_frame (df : DataFrame Series) : M loc :=
  λ w, let l := fresh (dom (frames w)) in
       (Ok l, with_frames (<[l := df]> (frames w)) w).

Definition read_models (l : loc) : M (pydict Result) :=
  λ w, match model_dicts w !! l with
       | Some d => (Ok d, w)
       | None => (Raise (Dangling l), w)
       end.

Definition write_models (l : loc) (d : pydict Result) : M () :=
  λ w, (Ok (), with_model_dicts (<[l := d]> (model_dicts w)) w).

Definition alloc_models (d : pydict Result) : M loc :=
  λ w, let l := fresh (dom (model_dicts w)) in
       (Ok l, with_model_dicts (<[l := d]> (model_dicts w)) w).

Definition read_queue (l : loc) : M (pydict Closure) :=
  λ w, match queue_dicts w !! l with
       | Some d => (Ok d, w)
       | None => (Raise (Dangling l), w)
       end.

Definition write_queue (l : loc) (d : pydict Closure) : M () :=
  λ w, (Ok (), with_queue_dicts (<[l := d]> (queue_dicts w)) w).

Definition alloc_queue (d : pydict Closure) : M loc :=
  λ w, let l := fresh (dom (queue_dicts w)) in
       (Ok l, with_queue_dicts (<[l := d]> (queue_dicts w)) w).

(** [df.copy()]: a new dataframe with the content of the one at [l]. *)
Definition frame_copy (l : loc) : M loc :=
  df ← read_frame l; alloc_frame df.

(** The attributes only model objects have. *)
Definition read_model_attrs (self : loc) (attr : string) : M ModelAttrs :=
  o ← read_obj self;
  match model_attrs o with
  | Some a => mret a
  | None => raise (AttributeError attr)
  end.

End Store.

(** ** What the glue code calls and the repository does not define

    The body of a training method (it ends in [_run_unsupervised_model], which
    trains an estimator of the wrapped library), the check of a model name
    [_validate_model_name], and [split_data]. *)
Class Externals `{Data} := {
  model_function : ModelFn → loc → Args → bool → string → M Result;
  _validate_model_name : World → loc → string → bool;
  split_data :
    DataFrame Series → Q → string → string → DataFrame Series * DataFrame Series;
}.

(** The keyword arguments of a constructor call [type(self)(...)]; [None]
    is a keyword that was not passed. *)
Record InitKwargs := mkInitKwargs {
  kw_x_train : option loc;
  kw_target : option string;
  kw_x_test : option (option loc);
  kw_test_split_percentage : option Q;
  kw_exp_name : option string;
}.

Definition unexpected_keyword (name : string) : exn :=
  TypeError ("__init__() got an unexpected keyword argument " +:+ name).

Definition missing_argument (name : string) : exn :=
  TypeError ("__init__() missing 1 required positional argument: " +:+ name).

Section Construction.
Context `{Externals}.

(** [Analysis.__init__(self, x_train, x_test=None, target=...)], on a new
    object of class [c]. *)
Definition Analysis_init (c : Class) (x_train : loc) (x_test : option loc)
    (target : string) : M loc :=
  alloc_obj (mkObj c x_train x_test target None None).

(** [df.reset_index(drop=True)]: a new dataframe with the same columns. *)
Definition frame_reset_index (l : loc) : M loc := frame_copy l.

(** [ModelBase.__init__(self, x_train, target, x_test=None,
    test_split_percentage=0.2, exp_name=...)], on a new object of class [c]. *)
Definition ModelBase_init (c : Class) (x_train : loc) (target : string)
    (x_test : option loc) (test_split_percentage : Q) (exp_name : string) : M loc :=
  models ← alloc_models [];
  queued ← alloc_queue [];
  let problem := if decide (class_name c = "Classification") then "c" else "r" in
  split ←
    (if bool_decide (x_test = None) && negb (bool_decide (class_name c = "Unsupervised"))
     then
       df ← read_frame x_train;
       let parts := split_data df test_split_percentage target problem in
       tr ← alloc_frame parts.1;
       te ← alloc_frame parts.2;
       tr' ← frame_reset_index tr;
       te' ← frame_reset_index te;
       mret (tr', Some te')
     else mret (x_train, x_test));
  alloc_obj (mkObj c split.1 split.2 target None
               (Some (mkModelAttrs models queued exp_name test_split_percentage))).

(** [Unsupervised.__init__(self, x_train, exp_name=...)] *)
Definition Unsupervised_init (x_train : loc) (exp_name : string) : M loc :=
  ModelBase_init Unsupervised x_train EmptyString None (2 # 10)%Q exp_name.

(** [type(self)(x_train=.., ..)]: the constructor of class [c] called with keywords
    only, as both [__deepcopy__] methods do.  A keyword the signature of
    [c.__init__] lacks is a [TypeError]. *)
Definition instantiate (c : Class) (kw : InitKwargs) : M loc :=
  match c with
  | Analysis =>
      if bool_decide (is_Some (kw_test_split_percentage kw))
      then raise (unexpected_keyword "'test_split_percentage'")
      else if bool_decide (is_Some (kw_exp_name kw))
      then raise (unexpected_keyword "'exp_name'")
      else match kw_x_train kw with
           | None => raise (missing_argument "'x_train'")
           | Some xtr =>
               Analysis_init Analysis xtr (default None (kw_x_test kw))
                 (default EmptyString (kw_target kw))
           end
  | ModelBase =>
      match kw_x_train kw, kw_target kw with
      | None, _ => raise (missing_argument "'x_train'")
      | _, None => raise (missing_argument "'target'")
      | Some xtr, Some tgt =>
          ModelBase_init ModelBase xtr tgt (default None (kw_x_test kw))
            (default (2 # 10)%Q (kw_test_split_percentage kw))
            (default "my-experiment" (kw_exp_name kw))
      end
  | Unsupervised =>
      if bool_decide (is_Some (kw_target kw))
      then raise (unexpected_keyword "'target'")
      else if bool_decide (is_Some (kw_x_test kw))
      then raise (unexpected_keyword "'x_test'")
      else if bool_decide (is_Some (kw_test_split_percentage kw))
      then raise (unexpected_keyword "'test_split_percentage'")
      else match kw_x_train kw with
           | None => raise (missing_argument "'x_train'")
           | Some xtr =>
               Unsupervised_init xtr (default "my-experiment" (kw_exp_name kw))
           end
  end.

(** [self.x_test.copy() if self.x_test is not None else None] *)
Definition copy_x_test (o : Obj) : M (option loc) :=
  match x_test o with
  | Some l => l' ← frame_copy l; mret (Some l')
  | None => mret None
  end.

(** [Analysis.__deepcopy__] *)
Definition Analysis_deepcopy (self : loc) : M loc :=
  o ← read_obj self;
  x_test' ← copy_x_test o;
  x_train' ← frame_copy (x_train o);
  new_inst ← instantiate (cls o)
    (mkInitKwargs (Some x_train') (Some (target o)) (Some x_test') None None);
  n ← read_obj new_inst;
  write_obj new_inst
    (mkObj (cls n) (x_train n) (x_test n) (target n) (target_mapping o) (model_attrs n));;
  mret new_inst.

(** [ModelBase.__deepcopy__]: the two model dictionaries are handed over by
    reference, the copy shares them with the original. *)
Definition ModelBase_deepcopy (self : loc) : M loc :=
  o ← read_obj self;
  x_test' ← copy_x_test o;
  x_train' ← frame_copy (x_train o);
  a ← read_model_attrs self "test_split_percentage";
  new_inst ← instantiate (cls o)
    (mkInitKwargs (Some x_train') (Some (target o)) (Some x_test')
       (Some (test_split_percentage a)) (Some (exp_name a)));
  n ← read_obj new_inst;
  na ← read_model_attrs new_inst "_models";
  write_obj new_inst
    (mkObj (cls n) (x_train n) (x_test n) (target n) (target_mapping o)
       (Some (mkModelAttrs (_models a) (_queued_models a)
                (exp_name na) (test_split_percentage na))));;
  mret new_inst.

(** [copy(self)], that is [copy.deepcopy(self)], which calls the
    [__deepcopy__] the class of [self] resolves to. *)
Definition copy (self : loc) : M loc :=
  o ← read_obj self;
  match cls o with
  | Analysis => Analysis_deepcopy self
  | ModelBase | Unsupervised => ModelBase_deepcopy self
  end.

End Construction.

(** ** Accessors *)

Section Accessors.
Context `{Data}.

Definition added_label_message : string :=
  "Added a target (predictor) field (column) named " +:+ dquote +:+ "label"
  +:+ dquote +:+ ".".

(** The [features] property; [Analysis] and [ModelBase] define it with the
    same body.  [tolist()] builds a new list, which [remove] then changes. *)
Definition features (self : loc) : M (list string) :=
  o ← read_obj self;
  df ← read_frame (x_train o);
  let cols := df_columns df in
  if truthy (target o)
  then match list_remove (target o) cols with
       | Some cols' => mret cols'
       | None => raise (ValueError "list.remove(x): x not in list")
       end
  else mret cols.

(** The [columns] property. *)
Definition columns (self : loc) : M (list string) :=
  o ← read_obj self;
  df ← read_frame (x_train o);
  mret (df_columns df).

(** [frame[c]] on the dataframe at [l]. *)
Definition frame_getitem (l : loc) (c : string) : M Series :=
  df ← read_frame l;
  match df_getitem c df with
  | Some s => mret s
  | None => raise (KeyError c)
  end.

(** [frame[c] = value] on the dataframe at [l], in place. *)
Definition frame_setitem (l : loc) (c : string) (value : Series) : M () :=
  df ← read_frame l;
  write_frame l (df_setitem c value df).

(** [self.target = t] *)
Definition set_target (self : loc) (t : string) : M () :=
  o ← read_obj self;
  write_obj self
    (mkObj (cls o) (x_train o) (x_test o) t (target_mapping o) (model_attrs o)).

(** Getter of the [y_train] property of [Analysis]. *)
Definition y_train (self : loc) : M (option Series) :=
  o ← read_obj self;
  if truthy (target o)
  then s ← frame_getitem (x_train o) (target o); mret (Some s)
  else mret None.

(** Setter of the [y_train] property of [Analysis]. *)
Definition set_y_train (self : loc) (value : Series) : M () :=
  o ← read_obj self;
  if truthy (target o)
  then frame_setitem (x_train o) (target o) value
  else
    set_target self "label";;
    o' ← read_obj self;
    frame_setitem (x_train o') "label" value;;
    print added_label_message.

(** Getter of the [y_test] property; [Analysis] and [ModelBase] define it
    with the same body. *)
Definition y_test (self : loc) : M (option Series) :=
  o ← read_obj self;
  match x_test o with
  | Some l =>
      if truthy (target o)
      then s ← frame_getitem l (target o); mret (Some s)
      else mret None
  | None => mret None
  end.

(** Setter of the [y_test] property; [Analysis] and [ModelBase] define it
    with the same body. *)
Definition set_y_test (self : loc) (value : Series) : M () :=
  o ← read_obj self;
  match x_test o with
  | Some l =>
      if truthy (target o)
      then frame_setitem l (target o) value
      else
        set_target self "label";;
        o' ← read_obj self;
        match x_test o' with
        | Some l' => frame_setitem l' "label" value
        | None => raise (TypeError "'NoneType' object does not support item assignment")
        end;;
        print added_label_message
  | None => mret ()
  end.

(** Getter of the [test_data] property of [ModelBase]:
    [self.x_test[self.features] if self.x_test is not None else None]. *)
Definition test_data (self : loc) : M (option (DataFrame Series)) :=
  o ← read_obj self;
  match x_test o with
  | Some l =>
      cols ← features self;
      df ← read_frame l;
      match df_select cols df with
      | Some sub => mret (Some sub)
      | None => raise (KeyError "not in index")
      end
  | None => mret None
  end.

End Accessors.

(** ** The model queue *)

Section Queue.
Context `{Externals}.

Definition invalid_model_name : exn :=
  AttributeError "Invalid model name. Please choose another one.".

Definition invalid_run_method : exn :=
  ValueError ("Invalid run method, accepted run methods are either " +:+ dquote
              +:+ "parallel" +:+ dquote +:+ " or " +:+ dquote +:+ "series"
              +:+ dquote +:+ ".").

Definition xgboost_message : string :=
  "XGBoost is not comptabile to be run in parallel. Please run it normally or in run all models in a series.".

(** The [wrapper] that [add_to_queue] puts around the training method [f].
    [kw_run] and [kw_model_name] are the keywords [run] and [model_name] of
    the call, [None] when the caller left them out; [args] are the other
    arguments.  The result is [None] when the call returns nothing. *)
Definition wrapper (f : ModelFn) (self : loc) (args : Args)
    (kw_run : option bool) (kw_model_name : option string) : M (option Result) :=
  let run := default (fn_default_run f) kw_run in
  let mname := default (fn_default_model_name f) kw_model_name in
  w ← get_world;
  if negb (_validate_model_name w self mname)
  then raise invalid_model_name
  else if run
  then
    log_training (fn_name f) mname;;
    r ← model_function f self args run mname;
    mret (Some r)
  else if str_contains "XGBoost" (fn_name f)
  then print xgboost_message;; mret None
  else
    a ← read_model_attrs self "_queued_models";
    q ← read_queue (_queued_models a);
    write_queue (_queued_models a)
      (dict_set mname (mkClosure self f args true mname) q);;
    mret None.

(** Calling a queued closure: the decorated method, with the frozen
    arguments. *)
Definition call_closure (c : Closure) : M (option Result) :=
  wrapper (c_fn c) (c_self c) (c_args c) (Some (c_run c)) (Some (c_model_name c)).

(** [_run(model)] *)
Definition _run (model : Closure) : M (option Result) := call_closure model.

(** [pool.map(_run, closures)]: every closure runs in a worker process, on
    the worker's own copy of the objects, so nothing a closure does to the
    store reaches the caller, the training log included; the results come
    back in the order of the closures.  When closures fail, the exception of
    the first one in that order is the one reported here. *)
Fixpoint pool_map (closures : list Closure) : M (list (option Result)) :=
  match closures with
  | [] => mret []
  | c :: rest =>
      λ w, match _run c w with
           | (Ok r, _) =>
               match pool_map rest w with
               | (Ok rs, _) => (Ok (r :: rs), w)
               | (Raise e, _) => (Raise e, w)
               end
           | (Raise e, _) => (Raise e, w)
           end
  end.

(** One round of the loop of [_run_models_parallel]:
    [model_obj._models[result.model_name] = result] and
    [del model_obj._queued_models[result.model_name]]. *)
Definition register_result (model_obj : loc) (result : option Result) : M () :=
  match result with
  | None => raise (AttributeError "'NoneType' object has no attribute 'model_name'")
  | Some r =>
      a ← read_model_attrs model_obj "_models";
      m ← read_models (_models a);
      write_models (_models a) (dict_set (model_name r) r m);;
      a' ← read_model_attrs model_obj "_queued_models";
      q ← read_queue (_queued_models a');
      match dict_del (model_name r) q with
      | Some q' => write_queue (_queued_models a') q'
      | None => raise (KeyError (model_name r))
      end
  end.

Fixpoint register_results (model_obj : loc) (results : list (option Result)) : M () :=
  match results with
  | [] => mret ()
  | result :: rest =>
      register_result model_obj result;;
      register_results model_obj rest
  end.

(** [_run_models_parallel(model_obj)] *)
Definition _run_models_parallel (model_obj : loc) : M (list (option Result)) :=
  a ← read_model_attrs model_obj "_queued_models";
  q ← read_queue (_queued_models a);
  results ← pool_map (dict_values q);
  register_results model_obj results;;
  mret results.

(** The loop [for model in self._queued_models:
    models.append(self._queued_models[model]())].  [it] is the dictionary
    the loop iterates, [keys0] its keys when the loop started and [todo] the
    keys not visited yet.  The iterator refuses to go on once the dictionary
    changed: Python raises [RuntimeError] when its size changed; the model
    does so for every change of its keys. *)
Fixpoint series_loop (self it : loc) (keys0 todo : list string)
    (models : list (option Result)) : M (list (option Result)) :=
  q ← read_queue it;
  if negb (bool_decide (dict_keys q = keys0))
  then raise (RuntimeError "dictionary changed size during iteration")
  else
    match todo with
    | [] => mret models
    | model :: todo' =>
        a ← read_model_attrs self "_queued_models";
        q' ← read_queue (_queued_models a);
        match dict_get model q' with
        | None => raise (KeyError model)
        | Some closure =>
            r ← call_closure closure;
            series_loop self it keys0 todo' (models ++ [r])
        end
    end.

(** [ModelBase.run_models(self, method)] *)
Definition run_models (self : loc) (method : string) : M (list (option Result)) :=
  if decide (method = "parallel")
  then _run_models_parallel self
  else if decide (method = "series")
  then
    a ← read_model_attrs self "_queued_models";
    q ← read_queue (_queued_models a);
    series_loop self (_queued_models a) (dict_keys q) (dict_keys q) []
  else raise invalid_run_method.

Fixpoint print_all (lines : list string) : M () :=
  match lines with
  | [] => mret ()
  | l :: rest => print l;; print_all rest
  end.

(** [ModelBase.list_models(self)] *)
Definition list_models (self : loc) : M () :=
  print "######## QUEUED MODELS ########";;
  a ← read_model_attrs self "_queued_models";
  q ← read_queue (_queued_models a);
  (match q with
   | [] => print "No queued models."
   | _ => print_all (dict_keys q)
   end);;
  print EmptyString;;
  print "######### RAN MODELS ##########";;
  a' ← read_model_attrs self "_models";
  m ← read_models (_models a');
  match m with
  | [] => print "No ran models."
  | _ => print_all (dict_keys m)
  end.

Definition model_does_not_exist (name : string) : exn :=
  ValueError ("Model " +:+ name +:+ " does not exist").

(** [ModelBase.delete_model(self, name)] *)
Definition delete_model (self : loc) (name : string) : M () :=
  a ← read_model_attrs self "_queued_models";
  q ← read_queue (_queued_models a);
  (if dict_contains name q
   then match dict_del name q with
        | Some q' => write_queue (_queued_models a) q'
        | None => raise (KeyError name)
        end
   else
     m ← read_models (_models a);
     if dict_contains name m
     then match dict_del name m with
          | Some m' => write_models (_models a) m'
          | None => raise (KeyError name)
          end
     else raise (model_does_not_exist name));;
  list_models self.

(** A step from [w] to [w'] that changes no queued-models dictionary and
    keeps the model attributes of every object. *)
Definition queue_untouched (w w' : World) : Prop :=
  queue_dicts w' = queue_dicts w
  ∧ ∀ l o, objects w !! l = Some o →
           ∃ o', objects w' !! l = Some o' ∧ model_attrs o' = model_attrs o.

End Queue.

(** ** A concrete instance, to run the definitions

    Columns of integers, keyword arguments with integer values, and results
    that record the name they were trained under and the method that trained
    them. *)

Module Example.

Record Trained := mkTrained {
  trained_name : string;
  trained_by : string;
}.

Global Instance example_data : Data := {|
  Series := list Z;
  Args := list (string * Z);
  Result := Trained;
  model_name := trained_name;
|}.

(** A column is the list of its entries, one for every row. *)
Global Instance list_rows : RowCount (list Z) := length.

(** A training body: it stores the trained result under the model name in
    the [_models] of the object it is called on, and returns it. *)
Definition train (f : ModelFn) (self : loc) (args : list (string * Z))
    (run : bool) (mname : string) : M Trained :=
  a ← read_model_attrs self "_models";
  m ← read_models (_models a);
  write_models (_models a) (dict_set mname (mkTrained mname (fn_name f)) m);;
  mret (mkTrained mname (fn_name f)).

(** A name check: the name of an attribute of the object is not a valid
    model name. *)
Definition attribute_names : list string :=
  ["x_train"; "x_test"; "target"; "target_mapping"; "features"; "columns";
   "copy"; "run_models"; "list_models"; "delete_model"].

Definition valid_name (w : World) (self : loc) (name : string) : bool :=
  negb (bool_decide (name ∈ attribute_names)).

(** A split: the first row of every column goes to the test set. *)
Definition split_first_row (df : DataFrame (list Z)) (pct : Q)
    (target problem : string) : DataFrame (list Z) * DataFrame (list Z) :=
  (prod_map id (drop 1) <$> df, prod_map id (take 1) <$> df).

Global Instance example_externals : Externals := {|
  model_function := train;
  _validate_model_name := valid_name;
  split_data := split_first_row;
|}.

(** A training method whose name contains [XGBoost]. *)
Definition XGBoostClassification : ModelFn :=
  mkModelFn "XGBoostClassification" "xgb_cls" true.

Definition df0 : DataFrame (list Z) :=
  [("age", [31; 45; 27]%Z); ("income", [10; 20; 30]%Z); ("churn", [0; 1; 0]%Z)].

(** A store that holds the dataframe [df0] at location 0 and nothing else. *)
Definition w0 : World := mkWorld {[ 0 := df0 ]} ∅ ∅ ∅ [] [].

(** The world after [model = Unsupervised(df0)]; the object is at
    location 0. *)
Definition w_unsup : World := (Unsupervised_init 0 "my-experiment" w0).2.

(** The world after [model.KMeans(run=False)] and then
    [model.DBScan(run=False, model_name=...)]. *)
Definition w_queued : World :=
  (wrapper DBScan 0 [] (Some false) (Some "dbs_1")
     (wrapper KMeans 0 [] (Some false) None w_unsup).2).2.

(** The world after [data = Analysis(df0, target=...)], with the object
    at location 0. *)
Definition w_analysis : World := (Analysis_init Analysis 0 None "churn" w0).2.

(** The world after [data = Analysis(df0)]. *)
Definition w_no_target : World :=
  (Analysis_init Analysis 0 None EmptyString w0).2.

(** A dataframe that already has a column named label, and the world after
    [data = Analysis(df_label)]. *)
Definition df_label : DataFrame (list Z) :=
  [("label", [7; 8; 9]%Z); ("age", [31; 45; 27]%Z)].

Definition w_label : World :=
  (Analysis_init Analysis 0 None EmptyString
     (mkWorld {[ 0 := df_label ]} ∅ ∅ ∅ [] [])).2.

(** The objects and dataframes these worlds hold. *)
Definition o_unsup : Obj :=
  mkObj Unsupervised 0 None EmptyString None
    (Some (mkModelAttrs 0 0 "my-experiment" (2 # 10)%Q)).

Definition attrs_unsup : ModelAttrs := mkModelAttrs 0 0 "my-experiment" (2 # 10)%Q.

Definition o_analysis : Obj := mkObj Analysis 0 None "churn" None None.

Definition o_no_target : Obj := mkObj Analysis 0 None EmptyString None None.

Definition km_closure : Closure := mkClosure 0 KMeans [] true "km".

Definition dbs_closure : Closure := mkClosure 0 DBScan [] true "dbs_1".

Definition queue0 : pydict Closure := [("km", km_closure); ("dbs_1", dbs_closure)].

Definition km_result : Trained := mkTrained "km" "KMeans".

Definition dbs_result : Trained := mkTrained "dbs_1" "DBScan".

(** [data = Analysis(df0, x_test=df0.copy(), target=...)]: the test
    dataframe is at location 1. *)
Definition w_train_test : World :=
  (Analysis_init Analysis 0 (Some 1) "churn"
     (mkWorld {[ 0 := df0; 1 := df0 ]} ∅ ∅ ∅ [] [])).2.

Definition o_train_test : Obj := mkObj Analysis 0 (Some 1) "churn" None None.

End Example.

(** ** More of the model object *)

Section MoreAccessors.
Context `{Data}.

(** Getter of the [train_data] property of [ModelBase]:
    [self.x_train[self.features]]. *)
Definition train_data (self : loc) : M (DataFrame Series) :=
  o ← read_obj self;
  cols ← features self;
  df ← read_frame (x_train o);
  match df_select cols df with
  | Some sub => mret sub
  | None => raise (KeyError "not in index")
  end.

(** The two dictionaries of a model object are in the store and have
    unique keys. *)
Definition registry_wf (w : World) (a : ModelAttrs) : Prop :=
  ∃ m q,
    model_dicts w !! _models a = Some m
    ∧ queue_dicts w !! _queued_models a = Some q
    ∧ dict_wf m ∧ dict_wf q.

(** What [ModelBase.__getattr__] returns: a ran model, or whatever
    [_get_attr_] finds. *)
Inductive AttrValue (Other : Type) :=
| RanModel (r : Result)
| OtherAttr (v : Other).
Arguments RanModel {Other} r.
Arguments OtherAttr {Other} v.

Definition no_object_getattr : exn :=
  AttributeError "type object 'object' has no attribute '__getattr__'".

(** [ModelBase.__getattr__(self, key)], which Python calls when the normal
    lookup of [key] fails.  [object] has no [__getattr__], so the first
    branch raises [AttributeError]; [_get_attr_] is imported from [nyx.util],
    which is not among the sources, and is a parameter. *)
Definition ModelBase_getattr {Other : Type} (_get_attr_ : loc → string → M Other)
    (self : loc) (key : string) : M (AttrValue Other) :=
  if bool_decide (key ∈ ["__getstate__"; "__setstate__"])
  then raise no_object_getattr
  else
    a ← read_model_attrs self "_models";
    m ← read_models (_models a);
    if dict_contains key m
    then match dict_get key m with
         | Some r => mret (RanModel r)
         | None => raise (KeyError key)
         end
    else v ← _get_attr_ self key; mret (OtherAttr v).

End MoreAccessors.
Arguments AttrValue {_} Other.
Arguments RanModel {_ _} r.
Arguments OtherAttr {_ _} v.

(** ** Standardized column names

    [Analysis.standardize_column_names] rewrites a label with
    [re.sub(pattern, "_", name.lower())], where [pattern] matches a run of
    characters that are not word characters.  Strings are sequences of
    bytes here; the definitions say what Python does on ASCII labels, where
    the word characters are the letters, the digits and the underscore. *)

Definition is_upper (c : Ascii.ascii) : bool :=
  (65 <=? Ascii.nat_of_ascii c)%nat && (Ascii.nat_of_ascii c <=? 90)%nat.

Definition is_lower (c : Ascii.ascii) : bool :=
  (97 <=? Ascii.nat_of_ascii c)%nat && (Ascii.nat_of_ascii c <=? 122)%nat.

Definition is_digit (c : Ascii.ascii) : bool :=
  (48 <=? Ascii.nat_of_ascii c)%nat && (Ascii.nat_of_ascii c <=? 57)%nat.

Definition underscore : Ascii.ascii := Ascii.ascii_of_nat 95.

Definition is_word_char (c : Ascii.ascii) : bool :=
  is_upper c || is_lower c || is_digit c || bool_decide (c = underscore).

Definition lower_char (c : Ascii.ascii) : Ascii.ascii :=
  if is_upper c then Ascii.ascii_of_nat (Ascii.nat_of_ascii c + 32) else c.

(** [s.lower()] *)
Fixpoint str_lower (s : string) : string :=
  match s with
  | EmptyString => EmptyString
  | String c rest => String (lower_char c) (str_lower rest)
  end.

(** [re.sub(pattern, "_", s)]: every maximal run of characters that are not
    word characters becomes one underscore.  [in_run] says that the
    character before was part of such a run. *)
Fixpoint sub_nonword (in_run : bool) (s : string) : string :=
  match s with
  | EmptyString => EmptyString
  | String c rest =>
      if is_word_char c then String c (sub_nonword false rest)
      else if in_run then sub_nonword true rest
      else String underscore (sub_nonword true rest)
  end.

Definition standardize_name (name : string) : string :=
  sub_nonword false (str_lower name).

(** Every character of [s] satisfies [p]. *)
Fixpoint str_forall (p : Ascii.ascii → bool) (s : string) : bool :=
  match s with
  | EmptyString => true
  | String c rest => p c && str_forall p rest
  end.

Definition is_ascii (c : Ascii.ascii) : bool := (Ascii.nat_of_ascii c <? 128)%nat.

(** The characters a standardized name is made of. *)
Definition is_standard_char (c : Ascii.ascii) : bool :=
  is_lower c || is_digit c || bool_decide (c = underscore).

Section Rename.
Context `{Data}.

(** [df.rename(columns=mapping)]: a label that is a key of [mapping] is
    replaced by what it maps to, the others stay. *)
Definition df_rename (mapping : pydict string) (df : DataFrame Series)
  : DataFrame Series :=
  (λ col : string * Series, (default col.1 (dict_get col.1 mapping), col.2)) <$> df.

(** [frame.rename(columns=mapping, inplace=True)] on the dataframe at [l]. *)
Definition frame_rename (l : loc) (mapping : pydict string) : M () :=
  df ← read_frame l;
  write_frame l (df_rename mapping df).

(** The loop that fills [new_column_names]. *)
Definition column_mapping (names : list string) : pydict string :=
  foldl (λ acc name, dict_set name (standardize_name name) acc) [] names.

(** [Analysis.standardize_column_names(self)].  The method stores the
    mapping in [self.col_mapping] and returns [self]; [Obj] has no such
    attribute, and the computation returns the mapping instead. *)
Definition standardize_column_names (self : loc) : M (pydict string) :=
  o ← read_obj self;
  df ← read_frame (x_train o);
  let new_column_names := column_mapping (df_columns df) in
  set_target self (standardize_name (target o));;
  o' ← read_obj self;
  frame_rename (x_train o') new_column_names;;
  match x_test o' with
  | Some l => frame_rename l new_column_names
  | None => mret ()
  end;;
  mret new_column_names.

(** [val[self.target] = self.y_train] and [self.x_train = val]: the setter of
    the [train_data] property of [ModelBase].  What [self.y_train] is
    depends on the class of [self].  [ModelBase] defines no [y_train] and
    does not derive from [Analysis], so on an object of class [ModelBase]
    itself the lookup goes to [ModelBase.__getattr__]; what it returns is no
    column of the model, and [as_column] stands for what the dataframe
    engine makes of it.  A class that derives from both, as [Unsupervised]
    does, finds the property [y_train] of [Analysis].  When [y_train] is
    [None] the dataframe engine fills the column with missing values;
    [none_column] gives that column for a dataframe.  Rows are not part of
    the model of a dataframe: [val] is taken to have the rows of the
    dataframe the column comes from, so that the engine stores the column
    as it is. *)
Definition set_train_data {Other : Type} (_get_attr_ : loc → string → M Other)
    (as_column : AttrValue Other → DataFrame Series → M Series)
    (none_column : DataFrame Series → Series)
    (self : loc) (val : loc) : M () :=
  o0 ← read_obj self;
  match cls o0 with
  | ModelBase =>
      a ← ModelBase_getattr _get_attr_ self "y_train";
      o ← read_obj self;
      df ← read_frame val;
      col ← as_column a df;
      write_frame val (df_setitem (target o) col df)
  | Analysis | Unsupervised =>
      y ← y_train self;
      o ← read_obj self;
      df ← read_frame val;
      write_frame val (df_setitem (target o) (default (none_column df) y) df)
  end;;
  o' ← read_obj self;
  write_obj self
    (mkObj (cls o') val (x_test o') (target o') (target_mapping o') (model_attrs o')).


End Rename.

(** ** The training methods of [Unsupervised]

    The bodies of the four decorated methods.  Keyword arguments are a
    dictionary of values of the wrapped libraries; [is_truthy] is the truth
    value Python gives such a value.  The elbow search [find_optk] runs a
    visualizer of a wrapped library, and [_run_unsupervised_model] is not
    among the sources: both are parameters.  The keywords a body passes to
    [_run_unsupervised_model] after [run] are given to it as one
    dictionary, in the order of the call. *)

Inductive Estimator := SkKMeans | SkDBSCAN | SkIsolationForest | SkOneClassSVM.

(** [d.pop(k, None)]: the value under [k], if any, and the dictionary
    without [k]. *)
Definition dict_pop {V} (k : string) (d : pydict V) : option V * pydict V :=
  (dict_get k d, default d (dict_del k d)).

Section UnsupervisedBodies.
Context `{Data} {Value : Type}.
Context (is_truthy : Value → bool).
Context (find_optk : loc → pydict Value → M Value).
Context (_run_unsupervised_model :
           Estimator → loc → string → bool → pydict Value → M Result).

(** [Unsupervised.KMeans(self, model_name, run, verbose, **kwargs)] *)
Definition KMeans_body (self : loc) (model_name : string) (run : bool)
    (verbose : Value) (kwargs : pydict Value) : M Result :=
  let popped := dict_pop "n_clusters" kwargs in
  let kwargs' := popped.2 in
  n_clusters ←
    match popped.1 with
    | Some n => if is_truthy n then mret n else find_optk self kwargs'
    | None => find_optk self kwargs'
    end;
  _run_unsupervised_model SkKMeans self model_name run
    ([("verbose", verbose); ("n_clusters", n_clusters)] ++ kwargs').

(** [Unsupervised.DBScan(self, model_name, run, verbose, **kwargs)] *)
Definition DBScan_body (self : loc) (model_name : string) (run : bool)
    (verbose : Value) (kwargs : pydict Value) : M Result :=
  _run_unsupervised_model SkDBSCAN self model_name run kwargs.

(** [Unsupervised.IsolationForest(self, model_name, run, verbose, **kwargs)] *)
Definition IsolationForest_body (self : loc) (model_name : string) (run : bool)
    (verbose : Value) (kwargs : pydict Value) : M Result :=
  _run_unsupervised_model SkIsolationForest self model_name run
    (("verbose", verbose) :: kwargs).

(** [Unsupervised.OneClassSVM(self, model_name, run, verbose, **kwargs)] *)
Definition OneClassSVM_body (self : loc) (model_name : string) (run : bool)
    (verbose : Value) (kwargs : pydict Value) : M Result :=
  _run_unsupervised_model SkOneClassSVM self model_name run
    (("verbose", verbose) :: kwargs).

End UnsupervisedBodies.

(** ** Metrics of a classification model

    [ClassificationModelAnalysis.recall] and [precision].  The metric
    functions of the wrapped library are parameters that take the true
    labels, the predicted labels and the keywords of the call; [macro] is
    the value of the string of that name. *)

Section ClassificationMetrics.
Context {Labels Score Value : Type}.
Context (macro : Value).
Context (recall_score precision_score : Labels → Labels → pydict Value → Score).

(** What the two methods read of the analysis object. *)
Record ClassificationModelAnalysis := mkClassificationModelAnalysis {
  cma_y_test : Labels;
  cma_y_pred : Labels;
  cma_multiclass : bool;
}.

(** [ClassificationModelAnalysis.recall(self, **kwargs)] *)
Definition recall (self : ClassificationModelAnalysis) (kwargs : pydict Value)
  : Score :=
  let popped := dict_pop "average" kwargs in
  let avg := default macro popped.1 in
  if cma_multiclass self
  then recall_score (cma_y_test self) (cma_y_pred self) (("average", avg) :: popped.2)
  else recall_score (cma_y_test self) (cma_y_pred self) popped.2.

(** [ClassificationModelAnalysis.precision(self, **kwargs)] *)
Definition precision (self : ClassificationModelAnalysis) (kwargs : pydict Value)
  : Score :=
  let popped := dict_pop "average" kwargs in
  let avg := default macro popped.1 in
  if cma_multiclass self
  then precision_score (cma_y_test self) (cma_y_pred self) (("average", avg) :: popped.2)
  else precision_score (cma_y_test self) (cma_y_pred self) popped.2.

End ClassificationMetrics.

(** ** More concrete inputs *)

Module MoreExamples.
Import Example.

(** A store with the dataframe [df0] at locations 0, 1 and 2. *)
Definition w_frames : World :=
  mkWorld {[ 0 := df0; 1 := df0; 2 := df0 ]} ∅ ∅ ∅ [] [].

(** [model = ModelBase(df0, churn, x_test=df0')], then a queued [KMeans]. *)
Definition w_model : World :=
  (ModelBase_init ModelBase 0 "churn" (Some 1) (2 # 10)%Q "my-experiment"
     w_frames).2.

Definition o_model : Obj :=
  mkObj ModelBase 0 (Some 1) "churn" None (Some attrs_unsup).

Definition w_model_queued : World :=
  (wrapper KMeans 0 [] (Some false) None w_model).2.

(** The store after a parallel run of [w_queued] and a newly queued
    [IsolationForest]. *)
Definition w_requeued : World :=
  (wrapper IsolationForest 0 [] (Some false) None
     (run_models 0 "parallel" w_queued).2).2.

Definition iso_closure : Closure := mkClosure 0 IsolationForest [] true "iso_forest".

Definition iso_result : Trained := mkTrained "iso_forest" "IsolationForest".

Definition models0 : pydict Trained := [("km", km_result); ("dbs_1", dbs_result)].

(** A queue that holds a closure whose model name is rejected when the
    closure is called. *)
Definition bad_closure : Closure := mkClosure 0 KMeans [] true "copy".

Definition w_bad_queue : World :=
  mkWorld {[ 0 := df0 ]} {[ 0 := [] ]} {[ 0 := [("km", km_closure); ("copy", bad_closure)] ]}
    {[ 0 := o_unsup ]} [] [].

(** A queue that holds a closure under a name that is not the name the
    closure trains under. *)
Definition w_misnamed_queue : World :=
  mkWorld {[ 0 := df0 ]} {[ 0 := [] ]} {[ 0 := [("first", km_closure)] ]}
    {[ 0 := o_unsup ]} [] [].



(** Dataframes with labels that are not standardized; the test dataframe
    has a column the training dataframe lacks. *)
Definition df_raw : DataFrame (list Z) :=
  [("First Name", [1; 2]%Z); ("Income (k$)", [10; 20]%Z)].

Definition df_raw_test : DataFrame (list Z) :=
  [("First Name", [3]%Z); ("Zip Code", [4]%Z)].

Definition o_raw : Obj := mkObj Analysis 0 None "Income (k$)" None None.

Definition w_raw : World :=
  mkWorld {[ 0 := df_raw ]} ∅ ∅ {[ 0 := o_raw ]} [] [].

Definition o_raw_test : Obj := mkObj Analysis 0 (Some 1) "Income (k$)" None None.

Definition w_raw_test : World :=
  mkWorld {[ 0 := df_raw; 1 := df_raw_test ]} ∅ ∅ {[ 0 := o_raw_test ]} [] [].

(** [model = Unsupervised(df0)] and then [model.y_train = [1, 0, 1]]: an
    object of a class that has the property [y_train], with the target
    [label]. *)
Definition w_unsup_labelled : World :=
  (set_y_train 0 [1; 0; 1]%Z (Unsupervised_init 0 "my-experiment" w_frames).2).2.

Definition o_unsup_labelled : Obj :=
  mkObj Unsupervised 0 None "label" None (Some attrs_unsup).

Definition df0_labelled : DataFrame (list Z) := df0 ++ [("label", [1; 0; 1]%Z)].

(** An attribute that the dataframe engine cannot store as a column. *)
Definition no_column (a : AttrValue ()) (df : DataFrame (list Z)) : M (list Z) :=
  raise (ValueError "not a column").

(** A column of missing values, written as zeros. *)
Definition zeros (df : DataFrame (list Z)) : list Z :=
  match df with
  | [] => []
  | col :: _ => (λ _, 0%Z) <$> col.2
  end.

(** An attribute lookup that finds nothing. *)
Definition no_attr (self : loc) (key : string) : M () :=
  raise (AttributeError key).

(** Truth of an integer, an elbow search that answers 4, and a runner that
    returns a result named after the model. *)
Definition int_truthy (z : Z) : bool := negb (Z.eqb z 0).

Definition elbow_four (self : loc) (kwargs : pydict Z) : M Z := mret 4%Z.

Definition run_named (e : Estimator) (self : loc) (name : string) (run : bool)
    (kwargs : pydict Z) : M Trained :=
  mret (mkTrained name "runner").

(** A metric that counts the keywords it is called with. *)
Definition count_keywords (y_true y_pred : list Z) (kwargs : pydict Z) : nat :=
  length kwargs.

Definition binary_analysis : ClassificationModelAnalysis (Labels := list Z) :=
  mkClassificationModelAnalysis [0; 1; 1]%Z [0; 1; 0]%Z false.

End MoreExamples.

(** * Properties *)

(** ** Dictionaries and lists *)

Section DictFacts.
Context {V : Type}.
Implicit Types (d : pydict V) (k : string) (v : V).

Lemma dict_get_None k d : dict_get k d = None ↔ k ∉ dict_keys d.
Proof.
  induction d as [|[k' v'] d IH]; simpl.
  - split; [intros _; apply not_elem_of_nil | done].
  - destruct (decide (k' = k)) as [->|Hne].
    + split; [done | intros Hn; exfalso; apply Hn; left].
    + rewrite IH, not_elem_of_cons.
      split; [intros ?; split; [congruence | done] | intros [_ ?]; done].
Qed.

Lemma dict_get_is_Some k d : is_Some (dict_get k d) ↔ k ∈ dict_keys d.
Proof.
  rewrite <- not_eq_None_Some, dict_get_None.
  split; [apply dec_stable | auto].
Qed.

Lemma dict_contains_true k d : dict_contains k d = true ↔ k ∈ dict_keys d.
Proof. unfold dict_contains. apply bool_decide_eq_true. Qed.

Lemma dict_contains_false k d : dict_contains k d = false ↔ k ∉ dict_keys d.
Proof. unfold dict_contains. apply bool_decide_eq_false. Qed.

Lemma dict_get_set_eq k v d : dict_get k (dict_set k v d) = Some v.
Proof.
  induction d as [|[k' v'] d IH]; simpl.
  - by rewrite decide_True.
  - destruct (decide (k' = k)) as [->|Hne]; simpl.
    + by rewrite decide_True.
    + by rewrite decide_False.
Qed.

Lemma dict_get_set_ne k k' v d :
  k ≠ k' → dict_get k' (dict_set k v d) = dict_get k' d.
Proof.
  intros Hne. induction d as [|[k0 v0] d IH]; simpl.
  - by rewrite decide_False.
  - destruct (decide (k0 = k)) as [->|Hne0]; simpl.
    + by rewrite !decide_False.
    + destruct (decide (k0 = k')); auto.
Qed.

(** A new key goes last, an old key stays where it is. *)
Lemma dict_keys_set k v d :
  dict_keys (dict_set k v d) =
  if bool_decide (k ∈ dict_keys d) then dict_keys d else dict_keys d ++ [k].
Proof.
  induction d as [|[k' v'] d IH]; simpl; [done|].
  destruct (decide (k' = k)) as [->|Hne]; simpl.
  - rewrite bool_decide_eq_true_2; [done | left].
  - unfold dict_keys in *. simpl. rewrite IH.
    destruct (bool_decide (k ∈ d.*1)) eqn:Hin.
    + apply bool_decide_eq_true in Hin.
      rewrite bool_decide_eq_true_2; [done | by right].
    + apply bool_decide_eq_false in Hin.
      rewrite bool_decide_eq_false_2; [done|].
      rewrite not_elem_of_cons. auto.
Qed.

Lemma dict_set_wf k v d : dict_wf d → dict_wf (dict_set k v d).
Proof.
  unfold dict_wf. intros Hd. rewrite dict_keys_set.
  destruct (bool_decide (k ∈ dict_keys d)) eqn:Hin; [done|].
  apply bool_decide_eq_false in Hin.
  apply NoDup_app. split_and!; [done | | apply NoDup_singleton].
  intros x Hx ->%list_elem_of_singleton. done.
Qed.

(** Deleting a key takes exactly its first entry out. *)
Lemma dict_del_Some k d d' :
  dict_del k d = Some d' →
  ∃ d1 v d2, d = d1 ++ ((k, v) :: d2) ∧ d' = d1 ++ d2 ∧ k ∉ dict_keys d1.
Proof.
  revert d'. induction d as [|[k' v'] d IH]; intros d'; simpl; [done|].
  destruct (decide (k' = k)) as [->|Hne].
  - intros [= <-]. exists [], v', d. split_and!; [done..|apply not_elem_of_nil].
  - destruct (dict_del k d) as [d0|] eqn:Hdel; simpl; [|done].
    intros [= <-]. destruct (IH d0 eq_refl) as (d1 & v & d2 & -> & -> & Hn).
    exists ((k', v') :: d1), v, d2. split_and!; [done..|].
    unfold dict_keys in *. simpl. rewrite not_elem_of_cons. auto.
Qed.

Lemma dict_del_is_Some k d : is_Some (dict_del k d) ↔ k ∈ dict_keys d.
Proof.
  induction d as [|[k' v'] d IH]; simpl.
  - split; [intros [? [=]] | intros Hk; by apply elem_of_nil in Hk].
  - destruct (decide (k' = k)) as [->|Hne].
    + split; [intros _; left | eauto].
    + unfold dict_keys in *. simpl. rewrite elem_of_cons, <- IH.
      rewrite fmap_is_Some.
      split; [auto | intros [Heq|?]; [congruence | done]].
Qed.

Lemma dict_del_None k d : dict_del k d = None ↔ k ∉ dict_keys d.
Proof. rewrite <- dict_del_is_Some, eq_None_not_Some. done. Qed.

Lemma dict_del_length k d d' : dict_del k d = Some d' → length d = S (length d').
Proof.
  intros (d1 & v & d2 & -> & -> & _)%dict_del_Some.
  rewrite !length_app. simpl. lia.
Qed.

Lemma dict_del_keys_perm k d d' :
  dict_del k d = Some d' → dict_keys d ≡ₚ k :: dict_keys d'.
Proof.
  intros (d1 & v & d2 & -> & -> & _)%dict_del_Some.
  unfold dict_keys. rewrite !fmap_app. simpl.
  symmetry. apply Permutation_middle.
Qed.

Lemma dict_del_wf k d d' :
  dict_wf d → dict_del k d = Some d' → dict_wf d' ∧ k ∉ dict_keys d'.
Proof.
  unfold dict_wf. intros Hd Hdel.
  rewrite (dict_del_keys_perm _ _ _ Hdel) in Hd.
  apply NoDup_cons in Hd. tauto.
Qed.

Lemma dict_get_del_ne k k' d d' :
  k ≠ k' → dict_del k d = Some d' → dict_get k' d' = dict_get k' d.
Proof.
  intros Hne. revert d'. induction d as [|[k0 v0] d IH]; intros d'; simpl; [done|].
  destruct (decide (k0 = k)) as [->|Hne0].
  - intros [= <-]. by rewrite decide_False.
  - destruct (dict_del k d) as [d0|] eqn:Hdel; simpl; [|done].
    intros [= <-]. simpl. destruct (decide (k0 = k')); auto.
Qed.

End DictFacts.

(** [l.remove(x)] takes out the first occurrence of [x] and nothing else. *)
Lemma list_remove_Some x l :
  x ∈ l →
  ∃ l1 l2, l = l1 ++ (x :: l2) ∧ (x ∉ l1) ∧ list_remove x l = Some (l1 ++ l2).
Proof.
  induction l as [|y l IH]; intros Hin; [by apply elem_of_nil in Hin|].
  simpl. destruct (decide (y = x)) as [->|Hne].
  - exists [], l. split_and!; [done | apply not_elem_of_nil | done].
  - apply elem_of_cons in Hin as [->|Hin]; [done|].
    destruct (IH Hin) as (l1 & l2 & -> & Hn & ->).
    exists (y :: l1), l2. split_and!; [done | | done].
    rewrite not_elem_of_cons. auto.
Qed.

Lemma truthy_true s : truthy s = true ↔ s ≠ EmptyString.
Proof.
  unfold truthy. rewrite negb_true_iff. apply bool_decide_eq_false.
Qed.

Lemma truthy_false s : truthy s = false ↔ s = EmptyString.
Proof.
  unfold truthy. rewrite negb_false_iff. apply bool_decide_eq_true.
Qed.

(** ** Running computations *)

Section MonadFacts.
Context `{Data}.

Lemma bind_Ok {A B} (m : M A) (k : A → M B) w a w' :
  m w = (Ok a, w') → (m ≫= k) w = k a w'.
Proof. intros Hm. unfold mbind, M_bind. by rewrite Hm. Qed.

Lemma bind_Raise {A B} (m : M A) (k : A → M B) w e w' :
  m w = (Raise e, w') → (m ≫= k) w = (Raise e, w').
Proof. intros Hm. unfold mbind, M_bind. by rewrite Hm. Qed.

(** A computation that succeeded after a bind went through both halves. *)
Lemma bind_Ok_inv {A B} (m : M A) (k : A → M B) w b w' :
  (m ≫= k) w = (Ok b, w') → ∃ a w1, m w = (Ok a, w1) ∧ k a w1 = (Ok b, w').
Proof.
  unfold mbind, M_bind. destruct (m w) as [[a|e] w1]; [eauto | done].
Qed.

Lemma read_obj_Ok l w o : objects w !! l = Some o → read_obj l w = (Ok o, w).
Proof. intros Ho. unfold read_obj. by rewrite Ho. Qed.

Lemma read_frame_Ok l w df : frames w !! l = Some df → read_frame l w = (Ok df, w).
Proof. intros Hf. unfold read_frame. by rewrite Hf. Qed.

Lemma read_models_Ok l w m :
  model_dicts w !! l = Some m → read_models l w = (Ok m, w).
Proof. intros Hm. unfold read_models. by rewrite Hm. Qed.

Lemma read_queue_Ok l w q :
  queue_dicts w !! l = Some q → read_queue l w = (Ok q, w).
Proof. intros Hq. unfold read_queue. by rewrite Hq. Qed.

Lemma read_model_attrs_Ok self attr w o a :
  objects w !! self = Some o → model_attrs o = Some a →
  read_model_attrs self attr w = (Ok a, w).
Proof.
  intros Ho Ha. unfold read_model_attrs.
  rewrite (bind_Ok _ _ _ _ _ (read_obj_Ok _ _ _ Ho)). by rewrite Ha.
Qed.

End MonadFacts.

(** Evaluates the head of a computation with the facts at hand. *)
Ltac step :=
  first
    [ erewrite bind_Ok by (eauto using read_obj_Ok, read_frame_Ok,
        read_models_Ok, read_queue_Ok, read_model_attrs_Ok)
    | erewrite read_obj_Ok by eauto
    | erewrite read_frame_Ok by eauto
    | erewrite read_models_Ok by eauto
    | erewrite read_queue_Ok by eauto
    | erewrite read_model_attrs_Ok by eauto ].

(** ** Invalid input *)

Section InvalidInput.
Context `{Externals}.

(** C3. [run_models] called with a method string that is neither
    [parallel] nor [series] raises the [ValueError] of an invalid run method
    and hands back the store it was given: no training method was entered,
    and the queued-models and ran-models dictionaries are what they were. *)
Theorem run_models_invalid_method (self : loc) (method : string) (w : World) :
  method ≠ "parallel" → method ≠ "series" →
  ∃ msg, run_models self method w = (Raise (ValueError msg), w).
Proof.
  intros Hp Hs. unfold run_models.
  rewrite !decide_False by done. by eexists.
Qed.

(** C2, amended.  A call of a decorated training method with a model name
    that [_validate_model_name] rejects raises [AttributeError], whatever
    [run] is, and hands back the store it was given: the training method was
    not entered and nothing was added to the queued-models dictionary. *)
Theorem wrapper_invalid_model_name (f : ModelFn) (self : loc) (args : Args)
    (kw_run : option bool) (kw_model_name : option string) (w : World) :
  _validate_model_name w self
    (default (fn_default_model_name f) kw_model_name) = false →
  wrapper f self args kw_run kw_model_name w
  = (Raise (AttributeError "Invalid model name. Please choose another one."), w).
Proof.
  intros Hv. unfold wrapper.
  rewrite (bind_Ok get_world _ w w w eq_refl). by rewrite Hv.
Qed.

End InvalidInput.

(** ** Queueing a model *)

Section Queueing.
Context `{Externals}.

(** C8, amended.  A decorated training method called with [run=False] and a
    model name that [_validate_model_name] accepts returns [None] and trains
    nothing.  When the name of the method contains [XGBoost] the
    queued-models dictionary is left as it was; otherwise the closure of the
    method with the frozen arguments and [run=True] is stored in it under
    the model name. *)
Theorem wrapper_run_false (f : ModelFn) (self : loc) (args : Args)
    (kw_model_name : option string) (mname : string) (w : World) (o : Obj)
    (a : ModelAttrs) (q : pydict Closure) :
  mname = default (fn_default_model_name f) kw_model_name →
  _validate_model_name w self mname = true →
  objects w !! self = Some o →
  model_attrs o = Some a →
  queue_dicts w !! _queued_models a = Some q →
  ∃ w' q',
    wrapper f self args (Some false) kw_model_name w = (Ok None, w')
    ∧ trained w' = trained w
    ∧ model_dicts w' = model_dicts w
    ∧ queue_dicts w' !! _queued_models a = Some q'
    ∧ if str_contains "XGBoost" (fn_name f)
      then q' = q
      else dict_get mname q' = Some (mkClosure self f args true mname)
           ∧ (∀ k, k ≠ mname → dict_get k q' = dict_get k q)
           ∧ dict_keys q' =
             if bool_decide (mname ∈ dict_keys q)
             then dict_keys q else dict_keys q ++ [mname].
Proof.
  intros -> Hv Ho Ha Hq. unfold wrapper.
  rewrite (bind_Ok get_world _ w w w eq_refl).
  rewrite Hv. simpl.
  destruct (str_contains "XGBoost" (fn_name f)).
  - eexists _, _. split; [reflexivity|]. done.
  - do 2 step. eexists _, _. split; [reflexivity|]. simpl.
    split_and!; [done | done | apply lookup_insert_eq | apply dict_get_set_eq | |].
    + intros k Hk. by apply dict_get_set_ne.
    + apply dict_keys_set.
Qed.

End Queueing.

(** ** Construction of an Unsupervised object *)

Section UnsupervisedInit.
Context `{Externals}.

(** C10. [Unsupervised(x_train, exp_name)] splits nothing: the new object
    keeps the dataframe it was given, no dataframe is created, [x_test] is
    [None] and [target] is the empty string, and then [test_data] and
    [y_test] are [None]. *)
Theorem unsupervised_init_no_split (xtr : loc) (exp : string) (w : World) :
  ∃ self o w',
    Unsupervised_init xtr exp w = (Ok self, w')
    ∧ objects w' !! self = Some o
    ∧ cls o = Unsupervised
    ∧ x_train o = xtr
    ∧ frames w' = frames w
    ∧ x_test o = None
    ∧ target o = EmptyString
    ∧ test_data self w' = (Ok None, w')
    ∧ y_test self w' = (Ok None, w').
Proof.
  unfold Unsupervised_init, ModelBase_init.
  eexists _, _, _. split.
  { unfold mbind, M_bind, alloc_models, alloc_queue, alloc_obj. simpl. reflexivity. }
  assert (∀ (m : gmap loc Obj) (x : Obj), <[fresh (dom m) := x]> m !! fresh (dom m) = Some x)
    as Hnew by (intros; apply lookup_insert_eq).
  split_and!; simpl; try done.
  - unfold test_data. by erewrite bind_Ok by (apply read_obj_Ok; simpl; apply Hnew).
  - unfold y_test. by erewrite bind_Ok by (apply read_obj_Ok; simpl; apply Hnew).
Qed.

End UnsupervisedInit.

(** ** Train and test accessors *)

Section FrameFacts.
Context {Series : Type}.
Implicit Types (df : DataFrame Series) (c : string) (v : Series).

Lemma dict_get_app_last c c' v df :
  dict_get c' (df ++ [(c, v)]) =
  match dict_get c' df with
  | Some x => Some x
  | None => if decide (c = c') then Some v else None
  end.
Proof.
  induction df as [|[c0 v0] df IH]; simpl; [done|].
  destruct (decide (c0 = c')); done.
Qed.

Lemma dict_get_overwrite c c' v df :
  dict_get c'
    ((λ col : string * Series, if decide (col.1 = c) then (c, v) else col) <$> df)
  = if decide (c' = c) then (λ _, v) <$> dict_get c df else dict_get c' df.
Proof.
  induction df as [|[c0 v0] df IH]; csimpl.
  - by destruct (decide (c' = c)).
  - destruct (decide (c0 = c)) as [->|Hne]; csimpl.
    + destruct (decide (c = c')) as [<-|Hne'].
      * by rewrite decide_True.
      * rewrite IH. destruct (decide (c' = c)); [congruence | done].
    + destruct (decide (c0 = c')) as [->|Hne'].
      * by rewrite decide_False by done.
      * rewrite IH. by destruct (decide (c' = c)) as [->|?].
Qed.

Lemma df_columns_overwrite c v df :
  df_columns ((λ col : string * Series, if decide (col.1 = c) then (c, v) else col) <$> df)
  = df_columns df.
Proof.
  unfold df_columns. induction df as [|[c0 v0] df IH]; csimpl; [done|].
  rewrite IH. by destruct (decide (c0 = c)) as [->|Hne].
Qed.

(** [df_setitem] does what an assignment to a column is expected to do. *)
Lemma df_setitem_assigned c v df : column_assigned c v df (df_setitem c v df).
Proof.
  unfold column_assigned, df_setitem, df_getitem.
  destruct (bool_decide (c ∈ df_columns df)) eqn:Hin.
  - apply bool_decide_eq_true in Hin.
    apply (dict_get_is_Some (V := Series)) in Hin as [x Hx].
    split_and!.
    + rewrite dict_get_overwrite, decide_True by done. by rewrite Hx.
    + intros c' Hne. by rewrite dict_get_overwrite, decide_False.
    + apply df_columns_overwrite.
  - apply bool_decide_eq_false in Hin.
    apply (dict_get_None (V := Series)) in Hin.
    split_and!.
    + by rewrite dict_get_app_last, Hin, decide_True.
    + intros c' Hne. rewrite dict_get_app_last.
      destruct (dict_get c' df); [done|]. by rewrite decide_False.
    + unfold df_columns. by rewrite fmap_app.
Qed.

End FrameFacts.

Section AccessorFacts.
Context `{Data}.

(** C5. Reading [features] of an object whose target is not empty and
    labels a column of [x_train] gives the column labels of [x_train], in
    order, without the first occurrence of the target; with an empty target
    it gives all the labels.  Either way the store is handed back as it was,
    so the columns of [x_train] are what they were. *)
Theorem features_spec (self : loc) (w : World) (o : Obj) (df : DataFrame Series) :
  objects w !! self = Some o →
  frames w !! x_train o = Some df →
  (target o ≠ EmptyString → target o ∈ df_columns df →
     ∃ before after,
       df_columns df = before ++ (target o :: after)
       ∧ (target o ∉ before)
       ∧ features self w = (Ok (before ++ after), w))
  ∧ (target o = EmptyString → features self w = (Ok (df_columns df), w)).
Proof.
  intros Ho Hdf. split.
  - intros Ht Hin.
    destruct (list_remove_Some _ _ Hin) as (l1 & l2 & Hcols & Hn & Hrm).
    exists l1, l2. split_and!; [done..|].
    unfold features. do 2 step.
    apply truthy_true in Ht. rewrite Ht. simpl. by rewrite Hrm.
  - intros Ht. unfold features. do 2 step.
    apply truthy_false in Ht. by rewrite Ht.
Qed.

Lemma frame_setitem_Ok l c value w df :
  frames w !! l = Some df →
  frame_setitem l c value w
  = (Ok (), with_frames (<[l := df_setitem c value df]> (frames w)) w).
Proof. intros Hdf. unfold frame_setitem. by step. Qed.

Lemma frame_getitem_Ok l c w df s :
  frames w !! l = Some df → df_getitem c df = Some s →
  frame_getitem l c w = (Ok s, w).
Proof. intros Hdf Hs. unfold frame_getitem. step. by rewrite Hs. Qed.

Lemma set_target_Ok self t w o :
  objects w !! self = Some o →
  set_target self t w
  = (Ok (), with_objects
              (<[self := mkObj (cls o) (x_train o) (x_test o) t
                           (target_mapping o) (model_attrs o)]> (objects w)) w).
Proof. intros Ho. unfold set_target. by step. Qed.

(** C9, amended.  On a dataframe whose column labels are distinct, and for
    a [value] that has one entry for every row of it, so that the dataframe
    engine accepts the assignment, assigning [value] to [y_train], or to
    [y_test] when [x_test] is a dataframe, leaves as target the old target
    when it was not empty and [label] when it was; the values are stored in
    the column of that name of the dataframe concerned, which is overwritten
    when the dataframe has such a column and appended as its last column
    when it has none, the other columns keeping their content; and reading
    [y_train], respectively [y_test], afterwards returns the values.  (Rows
    are not part of the model of a dataframe: the setters are modelled on
    the assignments the engine accepts.  A value it rejects makes the
    setter raise after the target has become [label], and a label that
    several columns carry makes the getter return a dataframe; neither is
    covered.) *)
Theorem y_setters_spec `{!RowCount Series} (self : loc) (value : Series)
    (w : World) (o : Obj) (t' : string) :
  objects w !! self = Some o →
  t' = (if truthy (target o) then target o else "label") →
  (∀ df, frames w !! x_train o = Some df →
     NoDup (df_columns df) → fits_rows value df →
     ∃ w' o' df',
       set_y_train self value w = (Ok (), w')
       ∧ objects w' !! self = Some o'
       ∧ target o' = t' ∧ x_train o' = x_train o ∧ x_test o' = x_test o
       ∧ frames w' !! x_train o = Some df'
       ∧ column_assigned t' value df df'
       ∧ y_train self w' = (Ok (Some value), w'))
  ∧ (∀ l df, x_test o = Some l → frames w !! l = Some df →
     NoDup (df_columns df) → fits_rows value df →
     ∃ w' o' df',
       set_y_test self value w = (Ok (), w')
       ∧ objects w' !! self = Some o'
       ∧ target o' = t' ∧ x_train o' = x_train o ∧ x_test o' = x_test o
       ∧ frames w' !! l = Some df'
       ∧ column_assigned t' value df df'
       ∧ y_test self w' = (Ok (Some value), w')).
Proof.
  intros Ho ->. split.
  - intros df Hdf _ _. unfold set_y_train. step.
    destruct (truthy (target o)) eqn:Ht.
    + rewrite (frame_setitem_Ok _ _ _ _ _ Hdf).
      eexists _, o, _. split; [reflexivity|]. simpl.
      split_and!; [done.. | apply lookup_insert_eq | apply df_setitem_assigned |].
      unfold y_train. step. rewrite Ht.
      erewrite bind_Ok; [done|].
      eapply frame_getitem_Ok; [apply lookup_insert_eq|].
      apply df_setitem_assigned.
    + erewrite bind_Ok; [|by apply set_target_Ok]. simpl.
      erewrite bind_Ok; [|apply read_obj_Ok; apply lookup_insert_eq]. simpl.
      erewrite bind_Ok; [|by apply frame_setitem_Ok]. simpl.
      eexists _, _, _. split; [reflexivity|]. simpl.
      split_and!; [apply lookup_insert_eq | done.. | apply lookup_insert_eq
                  | apply df_setitem_assigned |].
      unfold y_train.
      erewrite bind_Ok; [|apply read_obj_Ok; apply lookup_insert_eq]. simpl.
      erewrite bind_Ok; [done|].
      eapply frame_getitem_Ok; [apply lookup_insert_eq|].
      apply df_setitem_assigned.
  - intros l df Hl Hdf _ _. unfold set_y_test. step. rewrite Hl.
    destruct (truthy (target o)) eqn:Ht.
    + rewrite (frame_setitem_Ok _ _ _ _ _ Hdf).
      eexists _, o, _. split; [reflexivity|]. simpl.
      split_and!; [done.. | apply lookup_insert_eq | apply df_setitem_assigned |].
      unfold y_test. step. rewrite Hl, Ht.
      erewrite bind_Ok; [done|].
      eapply frame_getitem_Ok; [apply lookup_insert_eq|].
      apply df_setitem_assigned.
    + erewrite bind_Ok; [|by apply set_target_Ok]. simpl.
      erewrite bind_Ok; [|apply read_obj_Ok; apply lookup_insert_eq]. simpl.
      rewrite Hl.
      erewrite bind_Ok; [|by apply frame_setitem_Ok]. simpl.
      eexists _, _, _. split; [reflexivity|]. simpl.
      split_and!; [apply lookup_insert_eq | done.. | apply lookup_insert_eq
                  | apply df_setitem_assigned |].
      unfold y_test.
      erewrite bind_Ok; [|apply read_obj_Ok; apply lookup_insert_eq]. simpl.
      erewrite bind_Ok; [done|].
      eapply frame_getitem_Ok; [apply lookup_insert_eq|].
      apply df_setitem_assigned.
Qed.

End AccessorFacts.

(** ** Deleting a model *)

Section DeleteModel.
Context `{Externals}.

Lemma print_all_Ok lines (w : World) :
  print_all lines w = (Ok (), with_stdout (stdout w ++ lines) w).
Proof.
  revert w. induction lines as [|l lines IH]; intros w; simpl.
  - rewrite app_nil_r. by destruct w.
  - erewrite bind_Ok by reflexivity. rewrite IH. simpl.
    by rewrite <- app_assoc.
Qed.

Lemma print_keys_Ok {V} (d : pydict V) (msg : string) (w : World) :
  match d with
  | [] => print msg
  | _ => print_all (dict_keys d)
  end w
  = (Ok (), with_stdout
              (stdout w ++ match d with [] => [msg] | _ => dict_keys d end) w).
Proof. destruct d; [done | apply print_all_Ok]. Qed.

(** [list_models] only prints. *)
Lemma list_models_Ok self (w : World) o a q m :
  objects w !! self = Some o →
  model_attrs o = Some a →
  queue_dicts w !! _queued_models a = Some q →
  model_dicts w !! _models a = Some m →
  ∃ out, list_models self w = (Ok (), with_stdout out w).
Proof.
  intros Ho Ha Hq Hm. unfold list_models.
  erewrite bind_Ok by reflexivity.
  do 2 (erewrite bind_Ok by (simpl; eauto using read_model_attrs_Ok, read_queue_Ok)).
  rewrite (bind_Ok _ _ _ _ _ (print_keys_Ok q _ _)).
  do 2 (erewrite bind_Ok by reflexivity).
  do 2 (erewrite bind_Ok by (simpl; eauto using read_model_attrs_Ok, read_models_Ok)).
  rewrite print_keys_Ok. simpl. by eexists.
Qed.

(** C7. [delete_model(name)] takes [name] out of the queued-models
    dictionary when it is a key there; otherwise out of the ran-models
    dictionary when it is a key there; otherwise it raises [ValueError] and
    hands back the store as it was.  When it does not raise, the dictionary
    concerned loses the entry of [name] and no other, and the other
    dictionary is what it was. *)
Theorem delete_model_spec (self : loc) (name : string) (w : World) (o : Obj)
    (a : ModelAttrs) (q : pydict Closure) (m : pydict Result) :
  objects w !! self = Some o →
  model_attrs o = Some a →
  queue_dicts w !! _queued_models a = Some q →
  model_dicts w !! _models a = Some m →
  dict_wf q → dict_wf m →
  (name ∈ dict_keys q →
     ∃ w' q',
       delete_model self name w = (Ok (), w')
       ∧ queue_dicts w' !! _queued_models a = Some q'
       ∧ model_dicts w' !! _models a = Some m
       ∧ (name ∉ dict_keys q')
       ∧ (∀ k, k ≠ name → dict_get k q' = dict_get k q)
       ∧ length q = S (length q'))
  ∧ (name ∉ dict_keys q → name ∈ dict_keys m →
     ∃ w' m',
       delete_model self name w = (Ok (), w')
       ∧ queue_dicts w' !! _queued_models a = Some q
       ∧ model_dicts w' !! _models a = Some m'
       ∧ (name ∉ dict_keys m')
       ∧ (∀ k, k ≠ name → dict_get k m' = dict_get k m)
       ∧ length m = S (length m'))
  ∧ (name ∉ dict_keys q → name ∉ dict_keys m →
     ∃ msg, delete_model self name w = (Raise (ValueError msg), w)).
Proof.
  intros Ho Ha Hq Hm Hwq Hwm. split_and!.
  - intros Hin. unfold delete_model. do 2 step.
    rewrite (proj2 (dict_contains_true _ _) Hin).
    destruct (proj2 (dict_del_is_Some _ _) Hin) as [q' Hdel]. rewrite Hdel.
    destruct (list_models_Ok self
                (with_queue_dicts (<[_queued_models a := q']> (queue_dicts w)) w)
                o a q' m) as [out Hout]; simpl; [done.. | apply lookup_insert_eq | done |].
    erewrite bind_Ok by reflexivity. rewrite Hout.
    eexists _, q'. split; [reflexivity|]. simpl.
    split_and!;
      [apply lookup_insert_eq | done | by apply (dict_del_wf name q)
      | intros k Hk; by apply (dict_get_del_ne name) | by apply (dict_del_length name)].
  - intros Hnq Hin. unfold delete_model. do 2 step.
    rewrite (proj2 (dict_contains_false _ _) Hnq).
    destruct (proj2 (dict_del_is_Some _ _) Hin) as [m' Hdel].
    erewrite bind_Ok; last first.
    { step. rewrite (proj2 (dict_contains_true _ _) Hin), Hdel. reflexivity. }
    destruct (list_models_Ok self
                (with_model_dicts (<[_models a := m']> (model_dicts w)) w)
                o a q m') as [out Hout]; simpl; [done.. | apply lookup_insert_eq |].
    rewrite Hout.
    eexists _, m'. split; [reflexivity|]. simpl.
    split_and!;
      [done | apply lookup_insert_eq | by apply (dict_del_wf name m)
      | intros k Hk; by apply (dict_get_del_ne name) | by apply (dict_del_length name)].
  - intros Hnq Hnm. unfold delete_model. do 2 step.
    rewrite (proj2 (dict_contains_false _ _) Hnq).
    eexists. erewrite bind_Raise; [reflexivity|].
    step. by rewrite (proj2 (dict_contains_false _ _) Hnm).
Qed.

End DeleteModel.

(** ** Running the queue in parallel *)

Section Parallel.
Context `{Externals}.
Implicit Types (results : list (option Result)) (q : pydict Closure)
  (m : pydict Result).

(** The pool gives the results of the closures in the order of the closures
    and leaves the store of the caller alone. *)
Lemma pool_map_Ok closures w results w' :
  pool_map closures w = (Ok results, w') →
  w' = w ∧ Forall2 (λ c result, (_run c w).1 = Ok result) closures results.
Proof.
  revert results w'. induction closures as [|c cs IH]; intros results w'; simpl.
  - intros [= <- <-]. split; [done | constructor].
  - destruct (_run c w) as [[r|e] w1] eqn:Hrun; [|done].
    destruct (pool_map cs w) as [[rs|e] w2] eqn:Hrest; [|done].
    intros [= <- <-]. split; [done|].
    constructor; [by rewrite Hrun | by eapply IH].
Qed.

(** One round of the loop that registers the results. *)
Lemma register_result_Ok self result w w' o a m q :
  objects w !! self = Some o →
  model_attrs o = Some a →
  model_dicts w !! _models a = Some m →
  queue_dicts w !! _queued_models a = Some q →
  register_result self result w = (Ok (), w') →
  ∃ r q',
    result = Some r
    ∧ dict_del (model_name r) q = Some q'
    ∧ objects w' = objects w
    ∧ model_dicts w' !! _models a = Some (dict_set (model_name r) r m)
    ∧ queue_dicts w' !! _queued_models a = Some q'.
Proof.
  intros Ho Ha Hm Hq. destruct result as [r|]; simpl; [|done].
  do 2 step.
  erewrite bind_Ok by reflexivity.
  do 2 (erewrite bind_Ok by (simpl; eauto using read_model_attrs_Ok, read_queue_Ok)).
  destruct (dict_del (model_name r) q) as [q'|] eqn:Hdel; [|done].
  intros [= <-]. exists r, q'. simpl.
  split_and!; [done.. | apply lookup_insert_eq | apply lookup_insert_eq].
Qed.

(** The whole loop: the names of the results are taken out of the queue one
    by one, and each result ends up in the ran-models dictionary under its
    name. *)
Lemma register_results_Ok self o a results :
  ∀ w w' m q,
    objects w !! self = Some o →
    model_attrs o = Some a →
    model_dicts w !! _models a = Some m →
    queue_dicts w !! _queued_models a = Some q →
    dict_wf q →
    register_results self results w = (Ok (), w') →
    ∃ rs m' q',
      results = Some <$> rs
      ∧ objects w' = objects w
      ∧ model_dicts w' !! _models a = Some m'
      ∧ queue_dicts w' !! _queued_models a = Some q'
      ∧ dict_keys q ≡ₚ (model_name <$> rs) ++ dict_keys q'
      ∧ (∀ r, r ∈ rs → dict_get (model_name r) m' = Some r)
      ∧ (∀ k, k ∉ model_name <$> rs → dict_get k m' = dict_get k m).
Proof.
  induction results as [|result rest IH]; intros w w' m q Ho Ha Hm Hq Hwf; simpl.
  - intros [= <-]. exists [], m, q. split_and!; try done.
    intros r Hr. by apply elem_of_nil in Hr.
  - intros (u & w1 & Hstep & Hrest)%bind_Ok_inv. destruct u.
    destruct (register_result_Ok _ _ _ _ _ _ _ _ Ho Ha Hm Hq Hstep)
      as (r & q1 & -> & Hdel & Ho1 & Hm1 & Hq1).
    destruct (dict_del_wf _ _ _ Hwf Hdel) as [Hwf1 Hfresh].
    rewrite <- Ho1 in Ho.
    destruct (IH _ _ _ _ Ho Ha Hm1 Hq1 Hwf1 Hrest)
      as (rs & m' & q' & -> & Ho' & Hm' & Hq' & Hperm & Hin & Hout).
    assert (model_name r ∉ model_name <$> rs) as Hnew.
    { intros Hr. apply Hfresh. rewrite Hperm. apply elem_of_app. by left. }
    exists (r :: rs), m', q'. split_and!; [done | congruence | done | done | | |].
    + rewrite (dict_del_keys_perm _ _ _ Hdel), Hperm. done.
    + intros r' [->|Hr']%elem_of_cons; [|by apply Hin].
      rewrite (Hout _ Hnew). apply dict_get_set_eq.
    + intros k Hk. rewrite fmap_cons, not_elem_of_cons in Hk.
      destruct Hk as [Hk1 Hk2]. rewrite (Hout _ Hk2).
      by apply dict_get_set_ne.
Qed.

(** What a successful parallel run is made of. *)
Lemma run_models_parallel_inv self w w' o a q results :
  objects w !! self = Some o →
  model_attrs o = Some a →
  queue_dicts w !! _queued_models a = Some q →
  run_models self "parallel" w = (Ok results, w') →
  Forall2 (λ c result, (_run c w).1 = Ok result) (dict_values q) results
  ∧ register_results self results w = (Ok (), w').
Proof.
  intros Ho Ha Hq. unfold run_models. rewrite decide_True by done.
  unfold _run_models_parallel. do 2 step.
  intros (rs & w1 & Hpool & Hreg)%bind_Ok_inv.
  apply pool_map_Ok in Hpool as [-> Hall].
  apply bind_Ok_inv in Hreg as (u & w2 & Hreg & Hret). destruct u.
  injection Hret as <- <-. done.
Qed.

(** The pool succeeds when every closure does. *)
Lemma pool_map_succeeds closures results w :
  Forall2 (λ c result, (_run c w).1 = Ok result) closures results →
  pool_map closures w = (Ok results, w).
Proof.
  induction 1 as [|c result cs rs Hc _ IH]; simpl; [done|].
  destruct (_run c w) as [[r|e] w1]; simpl in Hc; [|done].
  injection Hc as ->. by rewrite IH.
Qed.

Lemma register_result_succeeds self r w o a m q q' :
  objects w !! self = Some o →
  model_attrs o = Some a →
  model_dicts w !! _models a = Some m →
  queue_dicts w !! _queued_models a = Some q →
  dict_del (model_name r) q = Some q' →
  register_result self (Some r) w
  = (Ok (), with_queue_dicts (<[_queued_models a := q']> (queue_dicts w))
              (with_model_dicts
                 (<[_models a := dict_set (model_name r) r m]> (model_dicts w)) w)).
Proof.
  intros Ho Ha Hm Hq Hdel. simpl. do 2 step.
  erewrite bind_Ok by reflexivity.
  do 2 (erewrite bind_Ok by (simpl; eauto using read_model_attrs_Ok, read_queue_Ok)).
  by rewrite Hdel.
Qed.

(** The registering loop succeeds when the results carry, in order, the
    names the closures are queued under. *)
Lemma register_results_succeeds self o a q rs :
  Forall2 (λ (entry : string * Closure) r, model_name r = entry.1) q rs →
  ∀ w m,
    objects w !! self = Some o →
    model_attrs o = Some a →
    model_dicts w !! _models a = Some m →
    queue_dicts w !! _queued_models a = Some q →
    ∃ w', register_results self (Some <$> rs) w = (Ok (), w').
Proof.
  induction 1 as [|[k c] r q' rs' Hname _ IH]; intros w m Ho Ha Hm Hq.
  - by eexists.
  - simpl in Hname. rewrite fmap_cons.
    change (register_results self (Some r :: (Some <$> rs')))
      with (register_result self (Some r) ≫= λ _, register_results self (Some <$> rs')).
    erewrite bind_Ok; last first.
    { eapply register_result_succeeds; [done.. |].
      simpl. by rewrite decide_True. }
    eapply IH; simpl; [done | done | apply lookup_insert_eq | apply lookup_insert_eq].
Qed.

(** C6. [run_models(method=parallel)] returns one result for every queued
    model, in the order of the queued-models dictionary.  When it succeeds,
    the i-th result is the trained model that the i-th closure of the
    dictionary returns when it is run on the store of the call; and it
    succeeds, with these results, when every closure returns a trained model
    that carries the name the closure is queued under. *)
Theorem run_models_parallel_results (self : loc) (w : World) (o : Obj)
    (a : ModelAttrs) (q : pydict Closure) (m : pydict Result) :
  objects w !! self = Some o →
  model_attrs o = Some a →
  queue_dicts w !! _queued_models a = Some q →
  model_dicts w !! _models a = Some m →
  dict_wf q →
  (∀ results w',
     run_models self "parallel" w = (Ok results, w') →
     length results = length q
     ∧ Forall2 (λ closure result,
                  ∃ r, result = Some r ∧ (call_closure closure w).1 = Ok (Some r))
         (dict_values q) results)
  ∧ (∀ rs,
       Forall2 (λ (entry : string * Closure) r,
                  (call_closure entry.2 w).1 = Ok (Some r) ∧ model_name r = entry.1)
         q rs →
       ∃ w', run_models self "parallel" w = (Ok (Some <$> rs), w')).
Proof.
  intros Ho Ha Hq Hm Hwf. split.
  - intros results w' Hrun.
    destruct (run_models_parallel_inv _ _ _ _ _ _ _ Ho Ha Hq Hrun) as [Hall Hreg].
    destruct (register_results_Ok _ _ _ _ _ _ _ _ Ho Ha Hm Hq Hwf Hreg)
      as (rs & _ & _ & -> & _).
    split.
    + apply Forall2_length in Hall. unfold dict_values in Hall.
      by rewrite length_fmap in Hall.
    + clear Hreg Hrun. revert Hall. generalize (dict_values q). intros cs.
      revert cs. induction rs as [|r rs IH]; intros cs Hall.
      * inversion Hall. constructor.
      * inversion Hall as [|c ? cs' ? Hc Hrest]; subst. constructor; [|by apply IH].
        exists r. done.
  - intros rs Hall. unfold run_models. rewrite decide_True by done.
    unfold _run_models_parallel. do 2 step.
    erewrite bind_Ok; last first.
    { apply pool_map_succeeds. unfold dict_values.
      apply Forall2_fmap. eapply Forall2_impl; [exact Hall|].
      intros entry r [Hc _]. exact Hc. }
    destruct (register_results_succeeds self o a q rs) with (w := w) (m := m)
      as [w' Hreg]; [|done..|].
    { eapply Forall2_impl; [exact Hall|]. by intros entry r [_ Hn]. }
    rewrite (bind_Ok _ _ _ _ _ Hreg). by eexists.
Qed.

(** X2. After a successful
    [run_models(method=parallel)] the queued-models dictionary is empty and
    every name that was queued is a key of the ran-models dictionary, where
    it holds a result of that name. *)
Theorem run_models_parallel_drains (self : loc) (w w' : World) (o : Obj)
    (a : ModelAttrs) (q : pydict Closure) (m : pydict Result)
    (results : list (option Result)) :
  objects w !! self = Some o →
  model_attrs o = Some a →
  queue_dicts w !! _queued_models a = Some q →
  model_dicts w !! _models a = Some m →
  dict_wf q →
  run_models self "parallel" w = (Ok results, w') →
  queue_dicts w' !! _queued_models a = Some []
  ∧ ∃ m', model_dicts w' !! _models a = Some m'
          ∧ ∀ k, k ∈ dict_keys q →
                 ∃ r, dict_get k m' = Some r ∧ model_name r = k.
Proof.
  intros Ho Ha Hq Hm Hwf Hrun.
  destruct (run_models_parallel_inv _ _ _ _ _ _ _ Ho Ha Hq Hrun) as [Hall Hreg].
  destruct (register_results_Ok _ _ _ _ _ _ _ _ Ho Ha Hm Hq Hwf Hreg)
    as (rs & m' & q' & -> & _ & Hm' & Hq' & Hperm & Hin & _).
  apply Forall2_length in Hall. unfold dict_values in Hall.
  rewrite !length_fmap in Hall.
  assert (q' = []) as ->.
  { apply Permutation_length in Hperm.
    unfold dict_keys in Hperm. rewrite length_app, !length_fmap in Hperm.
    destruct q'; [done | simpl in Hperm; lia]. }
  split; [done|]. exists m'. split; [done|].
  intros k Hk. rewrite Hperm, app_nil_r in Hk.
  apply list_elem_of_fmap in Hk as (r & -> & Hr). eauto.
Qed.

End Parallel.

(** ** Deep copies *)

Section Copy.
Context `{Externals}.

Lemma frame_copy_Ok l (w : World) df :
  frames w !! l = Some df →
  frame_copy l w
  = (Ok (fresh (dom (frames w))),
     with_frames (<[fresh (dom (frames w)) := df]> (frames w)) w).
Proof. intros Hdf. unfold frame_copy. by step. Qed.

Lemma fresh_frame_ne {V} (fr : gmap loc V) l :
  is_Some (fr !! l) → l ≠ fresh (dom fr).
Proof.
  intros Hl%elem_of_dom ->. by apply (is_fresh (dom fr)).
Qed.

(** A frame that is in the store is still there, with the same content, after
    a new frame was added. *)
Lemma lookup_after_alloc {V} (fr : gmap loc V) l x :
  is_Some (fr !! l) → <[fresh (dom fr) := x]> fr !! l = fr !! l.
Proof. intros Hl. apply lookup_insert_ne. symmetry. by apply fresh_frame_ne. Qed.

(** [copy_x_test] gives a new dataframe with the content of [x_test], or
    [None] when there is no [x_test]. *)
Lemma copy_x_test_Ok (w : World) o :
  (∀ l, x_test o = Some l → is_Some (frames w !! l)) →
  ∃ xte w1,
    copy_x_test o w = (Ok xte, w1)
    ∧ objects w1 = objects w
    ∧ model_dicts w1 = model_dicts w
    ∧ queue_dicts w1 = queue_dicts w
    ∧ (∀ l, is_Some (frames w !! l) → frames w1 !! l = frames w !! l)
    ∧ match xte, x_test o with
      | Some l', Some l => (l' ∉ dom (frames w)) ∧ frames w1 !! l' = frames w !! l
      | None, None => frames w1 = frames w
      | _, _ => False
      end.
Proof.
  intros Hte. unfold copy_x_test. destruct (x_test o) as [l|].
  - destruct (Hte l eq_refl) as [df Hdf].
    erewrite bind_Ok by by apply frame_copy_Ok.
    eexists _, _. split; [reflexivity|]. simpl.
    split_and!; [done.. | | apply is_fresh |].
    + intros l0 Hl0. by apply lookup_after_alloc.
    + by rewrite lookup_insert_eq.
  - eexists _, _. split; [reflexivity|]. done.
Qed.

(** [ModelBase.__init__] when it does not split: the object gets two new,
    empty model dictionaries and the dataframes it was given. *)
Lemma ModelBase_init_no_split c xtr tgt xte pct exp (w : World) :
  is_Some xte ∨ c = Unsupervised →
  ModelBase_init c xtr tgt xte pct exp w
  = (Ok (fresh (dom (objects w))),
     with_objects
       (<[fresh (dom (objects w)) :=
            mkObj c xtr xte tgt None
              (Some (mkModelAttrs (fresh (dom (model_dicts w)))
                       (fresh (dom (queue_dicts w))) exp pct))]> (objects w))
       (with_queue_dicts (<[fresh (dom (queue_dicts w)) := []]> (queue_dicts w))
          (with_model_dicts (<[fresh (dom (model_dicts w)) := []]> (model_dicts w))
             w))).
Proof.
  intros Hc. unfold ModelBase_init.
  do 2 (erewrite bind_Ok by reflexivity).
  replace (bool_decide (xte = None)
           && negb (bool_decide (class_name c = "Unsupervised"))) with false.
  - by erewrite bind_Ok by reflexivity.
  - destruct Hc as [[l ->] | ->]; [done|]. by rewrite andb_false_r.
Qed.

(** X1. The copy of an [Analysis] object, or of a [ModelBase] object that has
    test data, is a new object of the same class with the same target and
    target mapping, whose dataframes are new dataframes with the content of
    the original's: the dataframes of the original are not those of the
    copy, so a change of the ones is no change of the others. *)
Theorem copy_independent (self : loc) (w : World) (o : Obj)
    (df : DataFrame Series) :
  objects w !! self = Some o →
  (cls o = Analysis
   ∨ (cls o = ModelBase ∧ is_Some (x_test o) ∧ is_Some (model_attrs o))) →
  frames w !! x_train o = Some df →
  (∀ l, x_test o = Some l → is_Some (frames w !! l)) →
  ∃ new o' w',
    copy self w = (Ok new, w')
    ∧ new ≠ self
    ∧ objects w' !! self = Some o
    ∧ objects w' !! new = Some o'
    ∧ cls o' = cls o
    ∧ target o' = target o
    ∧ target_mapping o' = target_mapping o
    ∧ frames w' !! x_train o' = Some df
    ∧ (x_train o' ∉ dom (frames w))
    ∧ (∀ l, is_Some (frames w !! l) → frames w' !! l = frames w !! l)
    ∧ match x_test o', x_test o with
      | Some l', Some l =>
          (l' ∉ dom (frames w)) ∧ l' ≠ x_train o' ∧ frames w' !! l' = frames w !! l
      | None, None => True
      | _, _ => False
      end.
Proof.
  intros Ho Hcls Hdf Hte.
  destruct (copy_x_test_Ok w o Hte) as (xte & w1 & Hcopy & Ho1 & _ & _ & Hkeep & Hxte).
  assert (frames w1 !! x_train o = Some df) as Hdf1 by (rewrite Hkeep; eauto).
  assert (self ≠ fresh (dom (objects w1))) as Hnew.
  { apply fresh_frame_ne. rewrite Ho1. eauto. }
  assert (∀ l, is_Some (frames w !! l) →
               <[fresh (dom (frames w1)) := df]> (frames w1) !! l = frames w !! l)
    as Hkeep2.
  { intros l Hl. rewrite lookup_after_alloc; rewrite Hkeep; done. }
  assert (fresh (dom (frames w1)) ∉ dom (frames w)) as Hfresh.
  { intros Hin. apply elem_of_dom in Hin. rewrite <- Hkeep in Hin by done.
    apply elem_of_dom in Hin. by apply (is_fresh (dom (frames w1))). }
  rewrite Ho1 in Hnew.
  unfold copy. step.
  destruct Hcls as [Hcls | (Hcls & [l Hl] & [a Ha])]; rewrite Hcls.
  - unfold Analysis_deepcopy. step.
    rewrite (bind_Ok _ _ _ _ _ Hcopy).
    erewrite bind_Ok by by apply frame_copy_Ok.
    rewrite Hcls. unfold instantiate, Analysis_init. simpl.
    erewrite bind_Ok by reflexivity.
    erewrite bind_Ok by (apply read_obj_Ok; simpl; apply lookup_insert_eq).
    erewrite bind_Ok by reflexivity.
    eexists _, _, _. split; [reflexivity|]. simpl. rewrite Ho1.
    split_and!.
    + done.
    + by rewrite !lookup_insert_ne by done.
    + apply lookup_insert_eq.
    + done.
    + done.
    + done.
    + apply lookup_insert_eq.
    + done.
    + done.
    + destruct xte as [l'|], (x_test o) as [l|]; try done.
      destruct Hxte as [Hl' Heq]. simpl. split_and!; [done | |].
      * intros Heq'. apply (is_fresh (dom (frames w1))). rewrite <- Heq'.
        apply elem_of_dom. rewrite Heq. eauto.
      * rewrite lookup_after_alloc; [done|]. rewrite Heq. eauto.
  - unfold ModelBase_deepcopy. step.
    rewrite (bind_Ok _ _ _ _ _ Hcopy).
    erewrite bind_Ok by by apply frame_copy_Ok.
    erewrite bind_Ok
      by (eapply read_model_attrs_Ok; simpl; [rewrite Ho1; exact Ho | done]).
    rewrite Hcls. unfold instantiate. simpl.
    rewrite Hl in Hxte. destruct xte as [l'|]; [|done].
    destruct Hxte as [Hl' Heq].
    erewrite bind_Ok by (apply ModelBase_init_no_split; left; eauto).
    erewrite bind_Ok by (apply read_obj_Ok; simpl; apply lookup_insert_eq).
    erewrite bind_Ok
      by (eapply read_model_attrs_Ok; simpl; [apply lookup_insert_eq | done]).
    erewrite bind_Ok by reflexivity.
    eexists _, _, _. split; [reflexivity|]. simpl. rewrite Ho1.
    split_and!.
    + done.
    + by rewrite !lookup_insert_ne by done.
    + apply lookup_insert_eq.
    + done.
    + done.
    + done.
    + apply lookup_insert_eq.
    + done.
    + done.
    + simpl. rewrite Hl. split_and!; [done | |].
      * intros Heq'. apply (is_fresh (dom (frames w1))). rewrite <- Heq'.
        apply elem_of_dom. rewrite Heq. apply Hte. done.
      * rewrite lookup_after_alloc; [done|]. rewrite Heq. by apply Hte.
Qed.

(** The copy of an [Unsupervised] object fails: [ModelBase.__deepcopy__]
    calls the constructor of the class of the object with the keywords of
    [ModelBase.__init__], which [Unsupervised.__init__] does not take. *)
Theorem copy_unsupervised_raises (self : loc) (w : World) (o : Obj)
    (a : ModelAttrs) (df : DataFrame Series) :
  objects w !! self = Some o →
  cls o = Unsupervised →
  model_attrs o = Some a →
  frames w !! x_train o = Some df →
  x_test o = None →
  ∃ w', copy self w = (Raise (unexpected_keyword "'target'"), w')
        ∧ objects w' = objects w.
Proof.
  intros Ho Hcls Ha Hdf Hte. unfold copy. step. rewrite Hcls.
  unfold ModelBase_deepcopy. step. unfold copy_x_test. rewrite Hte.
  erewrite bind_Ok by reflexivity.
  erewrite bind_Ok by by apply frame_copy_Ok.
  erewrite bind_Ok by (eapply read_model_attrs_Ok; simpl; eauto).
  rewrite Hcls. simpl. eexists. split; [reflexivity | done].
Qed.

End Copy.

(** ** Running the queue in series *)

Section Series.
Context `{Externals}.

Lemma queue_untouched_refl w : queue_untouched w w.
Proof. split; eauto. Qed.

Lemma queue_untouched_trans w1 w2 w3 :
  queue_untouched w1 w2 → queue_untouched w2 w3 → queue_untouched w1 w3.
Proof.
  intros [Hq12 Ho12] [Hq23 Ho23]. split; [congruence|].
  intros l o Ho. destruct (Ho12 _ _ Ho) as (o2 & Ho2 & Ha2).
  destruct (Ho23 _ _ Ho2) as (o3 & Ho3 & Ha3). exists o3. split; congruence.
Qed.

(** The training bodies considered here train and register results, and
    leave the queue to [run_models]. *)
Hypothesis training_leaves_queue : ∀ f self args run mname w r w',
  model_function f self args run mname w = (Ok r, w') → queue_untouched w w'.

Lemma call_closure_untouched c w r w' :
  c_run c = true →
  call_closure c w = (Ok r, w') → queue_untouched w w'.
Proof.
  intros Hrun. unfold call_closure, wrapper. rewrite Hrun. simpl.
  rewrite (bind_Ok get_world _ w w w eq_refl).
  destruct (_validate_model_name w (c_self c) (c_model_name c)); simpl; [|done].
  erewrite bind_Ok by reflexivity.
  intros (r0 & w1 & Hbody & Hret)%bind_Ok_inv. injection Hret as <- <-.
  apply training_leaves_queue in Hbody. done.
Qed.

Lemma series_loop_untouched self it keys0 todo :
  ∀ models w results w' o a q,
    objects w !! self = Some o →
    model_attrs o = Some a →
    queue_dicts w !! _queued_models a = Some q →
    (∀ k c, dict_get k q = Some c → c_run c = true) →
    series_loop self it keys0 todo models w = (Ok results, w') →
    queue_untouched w w' ∧ length results = length models + length todo.
Proof.
  induction todo as [|k todo IH]; intros models w results w' o a q Ho Ha Hq Hrun;
    simpl; intros (q0 & w0 & Hread & Hloop)%bind_Ok_inv.
  - unfold read_queue in Hread. destruct (queue_dicts w !! it) as [qi|]; [|done].
    injection Hread as <- <-.
    destruct (negb (bool_decide (dict_keys qi = keys0))); [done|].
    injection Hloop as <- <-. split; [apply queue_untouched_refl | lia].
  - unfold read_queue in Hread. destruct (queue_dicts w !! it) as [qi|]; [|done].
    injection Hread as <- <-.
    destruct (negb (bool_decide (dict_keys qi = keys0))); [done|].
    revert Hloop. do 2 step.
    destruct (dict_get k q) as [c|] eqn:Hc; [|done].
    intros (r & w1 & Hcall & Hrest)%bind_Ok_inv.
    pose proof (call_closure_untouched _ _ _ _ (Hrun _ _ Hc) Hcall) as Hstep.
    destruct Hstep as [Hq1 Ho1].
    destruct (Ho1 _ _ Ho) as (o1 & Ho1' & Ha1).
    assert (queue_dicts w1 !! _queued_models a = Some q) as Hq1' by congruence.
    rewrite Ha in Ha1.
    destruct (IH _ _ _ _ _ _ _ Ho1' Ha1 Hq1' Hrun Hrest) as [Hun Hlen].
    split.
    + eapply queue_untouched_trans; [|exact Hun]. by split.
    + rewrite Hlen, length_app. simpl. lia.
Qed.

(** The series half of C1, in general: when the training bodies leave the
    queue alone, a successful [run_models(method=series)] returns one result
    for every queued model and leaves the queued-models dictionary exactly
    as it was, so a queue that was not empty is not empty afterwards. *)
Theorem run_models_series_keeps_queue (self : loc) (w w' : World) (o : Obj)
    (a : ModelAttrs) (q : pydict Closure) (results : list (option Result)) :
  objects w !! self = Some o →
  model_attrs o = Some a →
  queue_dicts w !! _queued_models a = Some q →
  (∀ k c, dict_get k q = Some c → c_run c = true) →
  run_models self "series" w = (Ok results, w') →
  queue_dicts w' !! _queued_models a = Some q ∧ length results = length q.
Proof.
  intros Ho Ha Hq Hrun. unfold run_models.
  rewrite decide_False by done. rewrite decide_True by done.
  do 2 step. intros Hloop.
  destruct (series_loop_untouched _ _ _ _ _ _ _ _ _ _ _ Ho Ha Hq Hrun Hloop)
    as [[Hq' _] Hlen].
  split; [congruence|].
  rewrite Hlen. unfold dict_keys. by rewrite length_fmap.
Qed.

End Series.

(** * The definitions at work *)

Section Runs.
Import Example.

(** C1, series. [model = Unsupervised(df0)], [model.KMeans(run=False)],
    [model.DBScan(run=False, model_name=dbs_1)] and then
    [model.run_models(method=series)]: both models are trained and
    returned, and both are still queued afterwards. *)
Theorem run_models_series_leaves_models_queued :
  queue_dicts w_queued !! 0 = Some queue0
  ∧ (run_models 0 "series" w_queued).1 = Ok [Some km_result; Some dbs_result]
  ∧ queue_dicts (run_models 0 "series" w_queued).2 !! 0 = Some queue0
  ∧ queue0 ≠ [].
Proof. split_and!; [vm_compute; reflexivity.. | discriminate]. Qed.

(** C1, parallel, on the same queue: the queue is empty afterwards and both
    models are registered. *)
Lemma run_models_parallel_drains_witness :
  queue_dicts (run_models 0 "parallel" w_queued).2 !! 0 = Some []
  ∧ ∃ m', model_dicts (run_models 0 "parallel" w_queued).2 !! 0 = Some m'
          ∧ ∀ k, k ∈ dict_keys queue0 →
                 ∃ r, dict_get k m' = Some r ∧ model_name r = k.
Proof.
  apply (run_models_parallel_drains 0 w_queued _ o_unsup attrs_unsup queue0 []
           [Some km_result; Some dbs_result]);
    try (vm_compute; reflexivity).
  apply (bool_decide_unpack _). by vm_compute.
Defined.

(** The training body of the example leaves the queue alone. *)
Lemma train_leaves_queue f self args run mname (w : World) r w' :
  train f self args run mname w = (Ok r, w') → queue_untouched w w'.
Proof.
  unfold train.
  intros (a & w1 & Ha & Hrest)%bind_Ok_inv.
  apply bind_Ok_inv in Ha as (o & w0 & Ho & Ha).
  unfold read_obj in Ho. destruct (objects w !! self) as [o0|]; [|done].
  injection Ho as <- <-.
  destruct (model_attrs o0) as [a0|]; [|done]. injection Ha as <- <-.
  apply bind_Ok_inv in Hrest as (m & w2 & Hm & Hrest).
  unfold read_models in Hm.
  destruct (model_dicts w !! _models a0) as [m0|]; [|done].
  injection Hm as <- <-.
  apply bind_Ok_inv in Hrest as (u & w3 & Hw & Hret).
  injection Hw as Hw. injection Hret as <- <-. subst w3.
  split; [done|]. simpl. eauto.
Qed.

Lemma run_models_series_keeps_queue_witness :
  queue_dicts (run_models 0 "series" w_queued).2 !! 0 = Some queue0
  ∧ length [Some km_result; Some dbs_result] = length queue0.
Proof.
  apply (@run_models_series_keeps_queue example_data example_externals
           train_leaves_queue 0 w_queued _ o_unsup
           attrs_unsup queue0 [Some km_result; Some dbs_result]);
    try (vm_compute; reflexivity).
  intros k c. unfold queue0. simpl.
  repeat case_decide; intros [= <-]; reflexivity.
Defined.

(** C2: a model name that is the name of an attribute is rejected with
    [AttributeError], which is not a [ValueError]. *)
Lemma wrapper_invalid_model_name_witness :
  wrapper KMeans 0 [] (Some true) (Some "copy") w_unsup
  = (Raise (AttributeError "Invalid model name. Please choose another one."),
     w_unsup).
Proof. apply wrapper_invalid_model_name. reflexivity. Defined.

Lemma invalid_model_name_is_no_ValueError :
  _validate_model_name w_unsup 0 "copy" = false
  ∧ ¬ ∃ msg, (wrapper KMeans 0 [] (Some true) (Some "copy") w_unsup).1
             = Raise (ValueError msg).
Proof.
  split; [reflexivity|]. intros [msg Hmsg].
  unfold wrapper in Hmsg. rewrite (bind_Ok get_world _ _ _ _ eq_refl) in Hmsg.
  simpl in Hmsg. discriminate.
Qed.

(** C3 at the method string [sequential]. *)
Lemma run_models_invalid_method_witness :
  ∃ msg, run_models 0 "sequential" w_queued = (Raise (ValueError msg), w_queued).
Proof. apply run_models_invalid_method; discriminate. Defined.

(** C4. [model = Unsupervised(df0)] and then [model.copy()]: the call
    raises [TypeError] instead of returning a copy. *)
Theorem copy_of_unsupervised_fails :
  (Unsupervised_init 0 "my-experiment" w0).1 = Ok 0
  ∧ objects w_unsup !! 0 = Some o_unsup
  ∧ (copy 0 w_unsup).1
    = Raise (TypeError "__init__() got an unexpected keyword argument 'target'").
Proof. split_and!; vm_compute; reflexivity. Qed.

Lemma copy_unsupervised_raises_witness :
  ∃ w', copy 0 w_unsup = (Raise (unexpected_keyword "'target'"), w')
        ∧ objects w' = objects w_unsup.
Proof.
  apply (copy_unsupervised_raises 0 w_unsup o_unsup attrs_unsup df0);
    vm_compute; reflexivity.
Defined.

(** The copy of [data = Analysis(df0, x_test=.., target=..)] is at a new
    location and so are its two dataframes. *)
Lemma copy_independent_witness :
  ∃ new o' w',
    copy 0 w_train_test = (Ok new, w')
    ∧ new ≠ 0
    ∧ objects w' !! new = Some o'
    ∧ frames w' !! x_train o' = Some df0
    ∧ x_train o' ∉ dom (frames w_train_test).
Proof.
  destruct (copy_independent 0 w_train_test o_train_test df0)
    as (new & o' & w' & Hcopy & Hnew & _ & Ho' & _ & _ & _ & Hdf & Hfresh & _).
  - vm_compute; reflexivity.
  - left. reflexivity.
  - vm_compute; reflexivity.
  - intros l [= <-]. vm_compute. eauto.
  - exists new, o', w'. done.
Defined.

(** C5 on [data = Analysis(df0, target=churn)]. *)
Lemma features_spec_witness :
  ∃ before after,
    df_columns df0 = before ++ ("churn" :: after)
    ∧ ("churn" ∉ before)
    ∧ features 0 w_analysis = (Ok (before ++ after), w_analysis).
Proof.
  destruct (features_spec 0 w_analysis o_analysis df0) as [Hyes _].
  - vm_compute; reflexivity.
  - vm_compute; reflexivity.
  - apply Hyes; [discriminate|].
    apply (bool_decide_unpack _). by vm_compute.
Defined.

(** C6 on the queue of [w_queued]. *)
Lemma run_models_parallel_results_witness :
  (run_models 0 "parallel" w_queued).1 = Ok [Some km_result; Some dbs_result]
  ∧ Forall2 (λ closure result,
               ∃ r, result = Some r
                    ∧ (call_closure closure w_queued).1 = Ok (Some r))
      (dict_values queue0) [Some km_result; Some dbs_result].
Proof.
  destruct (run_models_parallel_results 0 w_queued o_unsup attrs_unsup queue0 [])
    as [Horder Hsucceeds]; try (vm_compute; reflexivity).
  - apply (bool_decide_unpack _). by vm_compute.
  - destruct (Hsucceeds [km_result; dbs_result]) as [w' Hrun].
    + repeat constructor.
    + split; [by rewrite Hrun | by apply (Horder _ w')].
Defined.

(** C7: [model.delete_model(km)] on the queue of [w_queued]. *)
Lemma delete_model_spec_witness :
  ∃ w' q',
    delete_model 0 "km" w_queued = (Ok (), w')
    ∧ queue_dicts w' !! 0 = Some q'
    ∧ model_dicts w' !! 0 = Some []
    ∧ ("km" ∉ dict_keys q')
    ∧ length queue0 = S (length q').
Proof.
  destruct (delete_model_spec 0 "km" w_queued o_unsup attrs_unsup queue0 [])
    as [Hqueued _]; try (vm_compute; reflexivity).
  - apply (bool_decide_unpack _). by vm_compute.
  - apply NoDup_nil_2.
  - destruct Hqueued as (w' & q' & Hdel & Hq' & Hm' & Hgone & _ & Hlen).
    + apply (bool_decide_unpack _). by vm_compute.
    + exists w', q'. done.
Defined.

(** C8: [model.KMeans(run=False)] queues a closure under the default
    name. *)
Lemma wrapper_run_false_witness :
  ∃ w' q',
    wrapper KMeans 0 [] (Some false) None w_unsup = (Ok None, w')
    ∧ trained w' = []
    ∧ queue_dicts w' !! 0 = Some q'
    ∧ dict_get "km" q' = Some km_closure.
Proof.
  destruct (@wrapper_run_false example_data example_externals KMeans 0 [] None
              "km" w_unsup o_unsup attrs_unsup [])
    as (w' & q' & Hcall & Htr & _ & Hq' & Hget & _);
    try (vm_compute; reflexivity).
  exists w', q'. done.
Defined.

(** C8: a method whose name contains [XGBoost], called with [run=False]
    and a model name that is rejected, raises instead of returning
    [None]. *)
Lemma xgboost_invalid_name_raises :
  str_contains "XGBoost" (fn_name XGBoostClassification) = true
  ∧ (wrapper XGBoostClassification 0 [] (Some false) (Some "copy") w_unsup).1
    ≠ Ok None.
Proof.
  split; [reflexivity|].
  unfold wrapper. rewrite (bind_Ok get_world _ _ _ _ eq_refl). simpl.
  discriminate.
Qed.

(** C9: [data = Analysis(df0)] and then [data.y_train = [1, 0, 1]];
    [data = Analysis(df0, x_test=.., target=churn)] and then
    [data.y_test = [1, 0, 1]]. *)
Lemma y_setters_spec_witness :
  (∃ w' o',
     set_y_train 0 [1; 0; 1]%Z w_no_target = (Ok (), w')
     ∧ objects w' !! 0 = Some o' ∧ target o' = "label"
     ∧ y_train 0 w' = (Ok (Some [1; 0; 1]%Z), w'))
  ∧ (∃ w' o',
       set_y_test 0 [1; 0; 1]%Z w_train_test = (Ok (), w')
       ∧ objects w' !! 0 = Some o' ∧ target o' = "churn"
       ∧ y_test 0 w' = (Ok (Some [1; 0; 1]%Z), w')).
Proof.
  split.
  - destruct (@y_setters_spec example_data list_rows 0 [1; 0; 1]%Z w_no_target
                o_no_target "label")
      as [Htrain _]; try (vm_compute; reflexivity).
    destruct (Htrain df0) as (w' & o' & df' & Hset & Ho' & Ht & _ & _ & _ & _ & Hget);
      [vm_compute; reflexivity | apply (bool_decide_unpack _); by vm_compute
      | repeat constructor |].
    exists w', o'. done.
  - destruct (@y_setters_spec example_data list_rows 0 [1; 0; 1]%Z w_train_test
                o_train_test "churn")
      as [_ Htest]; try (vm_compute; reflexivity).
    destruct (Htest 1 df0) as (w' & o' & df' & Hset & Ho' & Ht & _ & _ & _ & _ & Hget);
      [vm_compute; reflexivity | vm_compute; reflexivity
      | apply (bool_decide_unpack _); by vm_compute | repeat constructor |].
    exists w', o'. done.
Defined.

(** C9: on a dataframe that has a column named label already, the
    assignment adds no column: it overwrites that column. *)
Lemma set_y_train_overwrites_label :
  (target <$> objects w_label !! 0) = Some EmptyString
  ∧ frames w_label !! 0 = Some [("label", [7; 8; 9]%Z); ("age", [31; 45; 27]%Z)]
  ∧ (set_y_train 0 [1; 0; 1]%Z w_label).1 = Ok ()
  ∧ frames (set_y_train 0 [1; 0; 1]%Z w_label).2 !! 0
    = Some [("label", [1; 0; 1]%Z); ("age", [31; 45; 27]%Z)].
Proof. split_and!; vm_compute; reflexivity. Qed.

End Runs.

(** * More properties of the model queue *)

Section MoreParallel.
Context `{Externals}.
Implicit Types (results : list (option Result)) (q : pydict Closure)
  (m : pydict Result).

(** The registering loop touches the two dictionaries of the object and
    nothing else, and keeps their keys unique. *)
Lemma register_results_frame self o a results :
  ∀ w w' m q,
    objects w !! self = Some o →
    model_attrs o = Some a →
    model_dicts w !! _models a = Some m →
    queue_dicts w !! _queued_models a = Some q →
    register_results self results w = (Ok (), w') →
    frames w' = frames w ∧ objects w' = objects w
    ∧ stdout w' = stdout w ∧ trained w' = trained w
    ∧ (∀ l, l ≠ _models a → model_dicts w' !! l = model_dicts w !! l)
    ∧ (∀ l, l ≠ _queued_models a → queue_dicts w' !! l = queue_dicts w !! l)
    ∧ ∃ m' q', model_dicts w' !! _models a = Some m'
               ∧ queue_dicts w' !! _queued_models a = Some q'
               ∧ (dict_wf m → dict_wf m') ∧ (dict_wf q → dict_wf q').
Proof.
  induction results as [|result rest IH]; intros w w' m q Ho Ha Hm Hq; simpl.
  - intros [= <-]. split_and!; try done. by exists m, q.
  - intros (u & w1 & Hstep & Hrest)%bind_Ok_inv. destruct u.
    destruct (register_result_Ok _ _ _ _ _ _ _ _ Ho Ha Hm Hq Hstep)
      as (r & q1 & -> & Hdel & _).
    rewrite (register_result_succeeds _ _ _ _ _ _ _ _ Ho Ha Hm Hq Hdel) in Hstep.
    injection Hstep as Hw1.
    assert (objects w1 !! self = Some o) as Ho1 by by subst w1.
    assert (model_dicts w1 !! _models a = Some (dict_set (model_name r) r m))
      as Hm1 by (subst w1; apply lookup_insert_eq).
    assert (queue_dicts w1 !! _queued_models a = Some q1)
      as Hq1 by (subst w1; apply lookup_insert_eq).
    destruct (IH _ _ _ _ Ho1 Ha Hm1 Hq1 Hrest)
      as (Hf & Hob & Hso & Htr & Hmo & Hqo & m' & q' & Hm' & Hq' & Hwm & Hwq).
    subst w1. simpl in *. split_and!; try done.
    + intros l Hl. rewrite Hmo by done. by apply lookup_insert_ne.
    + intros l Hl. rewrite Hqo by done. by apply lookup_insert_ne.
    + exists m', q'. split_and!; [done | done | |].
      * intros Hw. by apply Hwm, dict_set_wf.
      * intros Hw. apply Hwq. by apply (dict_del_wf (model_name r) q).
Qed.

(** X3. Run in parallel, the queue leaves alone every ran model whose name is
    not queued, and nothing of the store but the two dictionaries of the
    object changes. *)
Theorem run_models_parallel_keeps_other_models (self : loc) (w w' : World)
    (o : Obj) (a : ModelAttrs) (q : pydict Closure) (m : pydict Result)
    (results : list (option Result)) :
  objects w !! self = Some o →
  model_attrs o = Some a →
  queue_dicts w !! _queued_models a = Some q →
  model_dicts w !! _models a = Some m →
  dict_wf q →
  run_models self "parallel" w = (Ok results, w') →
  (∃ m', model_dicts w' !! _models a = Some m'
         ∧ ∀ k, k ∉ dict_keys q → dict_get k m' = dict_get k m)
  ∧ frames w' = frames w ∧ objects w' = objects w
  ∧ (∀ l, l ≠ _models a → model_dicts w' !! l = model_dicts w !! l)
  ∧ (∀ l, l ≠ _queued_models a → queue_dicts w' !! l = queue_dicts w !! l).
Proof.
  intros Ho Ha Hq Hm Hwf Hrun.
  destruct (run_models_parallel_inv _ _ _ _ _ _ _ Ho Ha Hq Hrun) as [Hall Hreg].
  destruct (register_results_Ok _ _ _ _ _ _ _ _ Ho Ha Hm Hq Hwf Hreg)
    as (rs & m' & q' & -> & _ & Hm' & Hq' & Hperm & _ & Hout).
  destruct (register_results_frame _ _ _ _ _ _ _ _ Ho Ha Hm Hq Hreg)
    as (Hf & Hob & _ & _ & Hmo & Hqo & _).
  split_and!; try done.
  exists m'. split; [done|]. intros k Hk. apply Hout.
  intros Hin. apply Hk. rewrite Hperm. apply elem_of_app. by left.
Qed.

(** The pool fails when a closure does, and the caller's store is as it
    was. *)
Lemma pool_map_Raise closures c e w :
  c ∈ closures → (_run c w).1 = Raise e →
  ∃ e', pool_map closures w = (Raise e', w).
Proof.
  induction closures as [|c0 cs IH]; intros Hin Hc; [by apply elem_of_nil in Hin|].
  simpl. destruct (_run c0 w) as [[r|e0] w1] eqn:Hrun; [|by eexists].
  apply elem_of_cons in Hin as [->|Hin].
  - rewrite Hrun in Hc. done.
  - destruct (IH Hin Hc) as [e' ->]. by eexists.
Qed.

(** X4. When a queued closure raises, [run_models(method=parallel)] raises
    and the store is exactly what it was: nothing is registered and the
    queue is whole, also for the closures that succeeded. *)
Theorem run_models_parallel_closure_fails (self : loc) (w : World) (o : Obj)
    (a : ModelAttrs) (q : pydict Closure) (c : Closure) (e : exn) :
  objects w !! self = Some o →
  model_attrs o = Some a →
  queue_dicts w !! _queued_models a = Some q →
  c ∈ dict_values q →
  (call_closure c w).1 = Raise e →
  ∃ e', run_models self "parallel" w = (Raise e', w).
Proof.
  intros Ho Ha Hq Hin Hc. unfold run_models. rewrite decide_True by done.
  unfold _run_models_parallel. do 2 step.
  destruct (pool_map_Raise _ _ _ _ Hin Hc) as [e' Hpool].
  exists e'. by rewrite (bind_Raise _ _ _ _ _ Hpool).
Qed.

(** X5. A result is registered before its name is taken out of the queue.
    When the first result carries a name that is not queued, the run raises
    [KeyError] for that name, leaves the queue as it was, and has put the
    result in the ran-models dictionary all the same. *)
Theorem run_models_parallel_unqueued_name (self : loc) (w : World) (o : Obj)
    (a : ModelAttrs) (q : pydict Closure) (m : pydict Result) (r : Result)
    (rest : list (option Result)) :
  objects w !! self = Some o →
  model_attrs o = Some a →
  queue_dicts w !! _queued_models a = Some q →
  model_dicts w !! _models a = Some m →
  Forall2 (λ c result, (call_closure c w).1 = Ok result)
    (dict_values q) (Some r :: rest) →
  model_name r ∉ dict_keys q →
  ∃ w', run_models self "parallel" w = (Raise (KeyError (model_name r)), w')
        ∧ queue_dicts w' = queue_dicts w
        ∧ model_dicts w' !! _models a = Some (dict_set (model_name r) r m).
Proof.
  intros Ho Ha Hq Hm Hall Hname. unfold run_models. rewrite decide_True by done.
  unfold _run_models_parallel. do 2 step.
  rewrite (bind_Ok _ _ _ _ _ (pool_map_succeeds _ _ _ Hall)).
  eexists. split; [|split].
  - erewrite bind_Raise; [reflexivity|]. simpl.
    erewrite bind_Raise; [reflexivity|].
    do 2 step. erewrite bind_Ok by reflexivity.
    do 2 (erewrite bind_Ok by (simpl; eauto using read_model_attrs_Ok, read_queue_Ok)).
    by rewrite (proj2 (dict_del_None _ _) Hname).
  - done.
  - simpl. apply lookup_insert_eq.
Qed.

(** X6. With nothing queued, both ways of running return the empty list and
    leave the store as it was. *)
Theorem run_models_empty_queue (self : loc) (w : World) (o : Obj)
    (a : ModelAttrs) (method : string) :
  objects w !! self = Some o →
  model_attrs o = Some a →
  queue_dicts w !! _queued_models a = Some [] →
  method = "parallel" ∨ method = "series" →
  run_models self method w = (Ok [], w).
Proof.
  intros Ho Ha Hq [-> | ->]; unfold run_models.
  - rewrite decide_True by done. unfold _run_models_parallel. by do 2 step.
  - rewrite decide_False by done. rewrite decide_True by done.
    do 2 step. simpl. by step.
Qed.

End MoreParallel.

Section RegistryInvariant.
Context `{Externals}.

(** Deleting a queued model, step by step. *)
Lemma delete_model_queued_Ok self name (w : World) o a q m :
  objects w !! self = Some o →
  model_attrs o = Some a →
  queue_dicts w !! _queued_models a = Some q →
  model_dicts w !! _models a = Some m →
  name ∈ dict_keys q →
  ∃ q' out,
    dict_del name q = Some q'
    ∧ delete_model self name w
      = (Ok (), with_stdout out
                  (with_queue_dicts (<[_queued_models a := q']> (queue_dicts w)) w)).
Proof.
  intros Ho Ha Hq Hm Hin. unfold delete_model. do 2 step.
  rewrite (proj2 (dict_contains_true _ _) Hin).
  destruct (proj2 (dict_del_is_Some _ _) Hin) as [q' Hdel]. rewrite Hdel.
  destruct (list_models_Ok self
              (with_queue_dicts (<[_queued_models a := q']> (queue_dicts w)) w)
              o a q' m) as [out Hout]; simpl; [done.. | apply lookup_insert_eq | done |].
  erewrite bind_Ok by reflexivity. rewrite Hout. by exists q', out.
Qed.

(** Deleting a ran model that is not queued, step by step. *)
Lemma delete_model_ran_Ok self name (w : World) o a q m :
  objects w !! self = Some o →
  model_attrs o = Some a →
  queue_dicts w !! _queued_models a = Some q →
  model_dicts w !! _models a = Some m →
  name ∉ dict_keys q → name ∈ dict_keys m →
  ∃ m' out,
    dict_del name m = Some m'
    ∧ delete_model self name w
      = (Ok (), with_stdout out
                  (with_model_dicts (<[_models a := m']> (model_dicts w)) w)).
Proof.
  intros Ho Ha Hq Hm Hnq Hin. unfold delete_model. do 2 step.
  rewrite (proj2 (dict_contains_false _ _) Hnq).
  destruct (proj2 (dict_del_is_Some _ _) Hin) as [m' Hdel].
  erewrite bind_Ok; last first.
  { step. rewrite (proj2 (dict_contains_true _ _) Hin), Hdel. reflexivity. }
  destruct (list_models_Ok self
              (with_model_dicts (<[_models a := m']> (model_dicts w)) w)
              o a q m') as [out Hout]; simpl; [done.. | apply lookup_insert_eq |].
  rewrite Hout. by exists m', out.
Qed.

Lemma delete_model_missing self name (w : World) o a q m :
  objects w !! self = Some o →
  model_attrs o = Some a →
  queue_dicts w !! _queued_models a = Some q →
  model_dicts w !! _models a = Some m →
  name ∉ dict_keys q → name ∉ dict_keys m →
  delete_model self name w = (Raise (model_does_not_exist name), w).
Proof.
  intros Ho Ha Hq Hm Hnq Hnm. unfold delete_model. do 2 step.
  rewrite (proj2 (dict_contains_false _ _) Hnq).
  erewrite bind_Raise; [reflexivity|].
  step. by rewrite (proj2 (dict_contains_false _ _) Hnm).
Qed.

(** X7. Queueing a model, deleting a model and running the queue in parallel
    keep the two dictionaries of the object in the store, each with unique
    keys. *)
Theorem registry_wf_kept (self : loc) (w : World) (o : Obj) (a : ModelAttrs) :
  objects w !! self = Some o →
  model_attrs o = Some a →
  registry_wf w a →
  (∀ f args kw_model_name r w',
     wrapper f self args (Some false) kw_model_name w = (Ok r, w') →
     registry_wf w' a)
  ∧ (∀ name w', delete_model self name w = (Ok (), w') → registry_wf w' a)
  ∧ (∀ results w',
       run_models self "parallel" w = (Ok results, w') → registry_wf w' a).
Proof.
  intros Ho Ha (m & q & Hm & Hq & Hwm & Hwq). split_and!.
  - intros f args kw r w'. unfold wrapper.
    rewrite (bind_Ok get_world _ w w w eq_refl).
    destruct (_validate_model_name w self _); simpl; [|done].
    destruct (str_contains "XGBoost" (fn_name f)).
    + intros [= <- <-]. by exists m, q.
    + do 2 step. intros [= <- <-]. eexists m, _. simpl.
      split_and!; [done | apply lookup_insert_eq | done | by apply dict_set_wf].
  - intros name w' Hdel.
    destruct (decide (name ∈ dict_keys q)) as [Hin|Hnq].
    + destruct (delete_model_queued_Ok _ _ _ _ _ _ _ Ho Ha Hq Hm Hin)
        as (q' & out & Hq' & Hrun).
      rewrite Hrun in Hdel. injection Hdel as <-. exists m, q'. simpl.
      split_and!; [done | apply lookup_insert_eq | done
                  | by apply (dict_del_wf name q)].
    + destruct (decide (name ∈ dict_keys m)) as [Hin|Hnm].
      * destruct (delete_model_ran_Ok _ _ _ _ _ _ _ Ho Ha Hq Hm Hnq Hin)
          as (m' & out & Hm' & Hrun).
        rewrite Hrun in Hdel. injection Hdel as <-. exists m', q. simpl.
        split_and!; [apply lookup_insert_eq | done
                    | by apply (dict_del_wf name m) | done].
      * by rewrite (delete_model_missing _ _ _ _ _ _ _ Ho Ha Hq Hm Hnq Hnm) in Hdel.
  - intros results w' Hrun.
    destruct (run_models_parallel_inv _ _ _ _ _ _ _ Ho Ha Hq Hrun) as [_ Hreg].
    destruct (register_results_frame _ _ _ _ _ _ _ _ Ho Ha Hm Hq Hreg)
      as (_ & _ & _ & _ & _ & _ & m' & q' & Hm' & Hq' & Hwm' & Hwq').
    exists m', q'. auto.
Qed.

(** X8. [list_models] prints the header of the queue, the queued names in
    the order of the queue or a line that says there are none, an empty
    line, the header of the ran models and the ran names or a line that
    says there are none; it raises nothing and changes nothing else. *)
Theorem list_models_output (self : loc) (w : World) (o : Obj) (a : ModelAttrs)
    (q : pydict Closure) (m : pydict Result) :
  objects w !! self = Some o →
  model_attrs o = Some a →
  queue_dicts w !! _queued_models a = Some q →
  model_dicts w !! _models a = Some m →
  list_models self w
  = (Ok (),
     with_stdout
       (stdout w
        ++ ["######## QUEUED MODELS ########"]
        ++ (if bool_decide (q = []) then ["No queued models."] else dict_keys q)
        ++ [EmptyString; "######### RAN MODELS ##########"]
        ++ (if bool_decide (m = []) then ["No ran models."] else dict_keys m))
       w).
Proof.
  intros Ho Ha Hq Hm. unfold list_models.
  erewrite bind_Ok by reflexivity.
  do 2 (erewrite bind_Ok by (simpl; eauto using read_model_attrs_Ok, read_queue_Ok)).
  rewrite (bind_Ok _ _ _ _ _ (print_keys_Ok q _ _)).
  do 2 (erewrite bind_Ok by reflexivity).
  do 2 (erewrite bind_Ok by (simpl; eauto using read_model_attrs_Ok, read_models_Ok)).
  rewrite print_keys_Ok. unfold with_stdout. simpl. do 2 f_equal.
  rewrite <- !app_assoc. simpl.
  destruct q, m; reflexivity.
Qed.

End RegistryInvariant.

Section SharedRegistry.
Context `{Externals}.

(** X9. The copy of a [ModelBase] object holds the very dictionaries of the
    original, not copies of them: a model that is deleted through the copy
    is gone from the queue of the original too. *)
Theorem copy_shares_model_dicts (self : loc) (w : World) (o : Obj)
    (a : ModelAttrs) (df : DataFrame Series) (q : pydict Closure)
    (m : pydict Result) :
  objects w !! self = Some o →
  cls o = ModelBase →
  model_attrs o = Some a →
  is_Some (x_test o) →
  (∀ l, x_test o = Some l → is_Some (frames w !! l)) →
  frames w !! x_train o = Some df →
  queue_dicts w !! _queued_models a = Some q →
  model_dicts w !! _models a = Some m →
  dict_wf q →
  ∃ new o' a' w',
    copy self w = (Ok new, w')
    ∧ new ≠ self
    ∧ objects w' !! self = Some o
    ∧ objects w' !! new = Some o'
    ∧ model_attrs o' = Some a'
    ∧ _models a' = _models a
    ∧ _queued_models a' = _queued_models a
    ∧ queue_dicts w' !! _queued_models a = Some q
    ∧ model_dicts w' !! _models a = Some m
    ∧ ∀ name, name ∈ dict_keys q →
        ∃ w'' q',
          delete_model new name w' = (Ok (), w'')
          ∧ objects w'' !! self = Some o
          ∧ queue_dicts w'' !! _queued_models a = Some q'
          ∧ (name ∉ dict_keys q').
Proof.
  intros Ho Hcls Ha [l Hl] Hte Hdf Hq Hm Hwf.
  destruct (copy_x_test_Ok w o Hte)
    as (xte & w1 & Hcopy & Ho1 & Hm1 & Hq1 & Hkeep & Hxte).
  assert (frames w1 !! x_train o = Some df) as Hdf1 by (rewrite Hkeep; eauto).
  assert (self ≠ fresh (dom (objects w))) as Hnew by (apply fresh_frame_ne; eauto).
  rewrite Hl in Hxte. destruct xte as [l'|]; [|done].
  assert (copy self w
          = (Ok (fresh (dom (objects w))),
             with_objects
               (<[fresh (dom (objects w)) :=
                    mkObj ModelBase (fresh (dom (frames w1))) (Some l') (target o)
                      (target_mapping o)
                      (Some (mkModelAttrs (_models a) (_queued_models a)
                               (exp_name a) (test_split_percentage a)))]>
                  (<[fresh (dom (objects w)) :=
                       mkObj ModelBase (fresh (dom (frames w1))) (Some l') (target o)
                         None
                         (Some (mkModelAttrs (fresh (dom (model_dicts w)))
                                  (fresh (dom (queue_dicts w)))
                                  (exp_name a) (test_split_percentage a)))]>
                     (objects w)))
               (with_queue_dicts (<[fresh (dom (queue_dicts w)) := []]> (queue_dicts w))
                  (with_model_dicts
                     (<[fresh (dom (model_dicts w)) := []]> (model_dicts w))
                     (with_frames (<[fresh (dom (frames w1)) := df]> (frames w1)) w1)))))
    as Hrun.
  { unfold copy. step. rewrite Hcls. unfold ModelBase_deepcopy. step.
    rewrite (bind_Ok _ _ _ _ _ Hcopy).
    erewrite bind_Ok by by apply frame_copy_Ok.
    erewrite bind_Ok
      by (eapply read_model_attrs_Ok; simpl; [rewrite Ho1; exact Ho | done]).
    rewrite Hcls. unfold instantiate. simpl.
    erewrite bind_Ok by (apply ModelBase_init_no_split; left; eauto).
    erewrite bind_Ok by (apply read_obj_Ok; simpl; apply lookup_insert_eq).
    erewrite bind_Ok
      by (eapply read_model_attrs_Ok; simpl; [apply lookup_insert_eq | done]).
    erewrite bind_Ok by reflexivity.
    simpl. rewrite Ho1, Hm1, Hq1. reflexivity. }
  match type of Hrun with _ = (_, ?W) => remember W as w' eqn:Hw' end.
  assert (objects w' !! fresh (dom (objects w))
          = Some (mkObj ModelBase (fresh (dom (frames w1))) (Some l') (target o)
                    (target_mapping o)
                    (Some (mkModelAttrs (_models a) (_queued_models a)
                             (exp_name a) (test_split_percentage a))))) as Hnew'.
  { subst w'. simpl. apply lookup_insert_eq. }
  assert (objects w' !! self = Some o) as Hself'.
  { subst w'. simpl. by rewrite !lookup_insert_ne by done. }
  assert (queue_dicts w' !! _queued_models a = Some q) as Hq'.
  { subst w'. simpl. rewrite lookup_after_alloc; eauto. }
  assert (model_dicts w' !! _models a = Some m) as Hm'.
  { subst w'. simpl. rewrite lookup_after_alloc; eauto. }
  clear Hw'.
  eexists _, _, _, w'. split; [exact Hrun|].
  split_and!; [done | done | exact Hnew' | reflexivity | done.. |].
  intros name Hin.
  destruct (delete_model_queued_Ok (fresh (dom (objects w))) name w' _ _ q m
              Hnew' eq_refl Hq' Hm' Hin) as (q' & out & Hdel & Hgo).
  eexists _, q'. split; [exact Hgo|]. simpl.
  split_and!; [done | apply lookup_insert_eq | by apply (dict_del_wf name q)].
Qed.

End SharedRegistry.

Section AttributeAccess.
Context `{Externals} {Other : Type} (_get_attr_ : loc → string → M Other).

(** A name that is a key of the ran-models dictionary resolves to the model
    registered under it, without a call of [_get_attr_]. *)
Lemma ModelBase_getattr_ran self key (w : World) o a m r :
  objects w !! self = Some o →
  model_attrs o = Some a →
  model_dicts w !! _models a = Some m →
  key ≠ "__getstate__" → key ≠ "__setstate__" →
  dict_get key m = Some r →
  ModelBase_getattr _get_attr_ self key w = (Ok (RanModel r), w).
Proof.
  intros Ho Ha Hm Hg Hs Hr. unfold ModelBase_getattr.
  rewrite bool_decide_eq_false_2; last first.
  { rewrite !elem_of_cons, elem_of_nil. tauto. }
  do 2 step.
  rewrite (proj2 (dict_contains_true key m)); [by rewrite Hr|].
  apply dict_get_is_Some. eauto.
Qed.

(** X10. After a successful parallel run, every name that was queued can be
    read off the object as an attribute and gives the trained model of that
    name; the two names that pickling looks up raise [AttributeError]
    whatever the store holds. *)
Theorem ran_models_are_attributes (self : loc) (w w' : World) (o : Obj)
    (a : ModelAttrs) (q : pydict Closure) (m : pydict Result)
    (results : list (option Result)) :
  objects w !! self = Some o →
  model_attrs o = Some a →
  queue_dicts w !! _queued_models a = Some q →
  model_dicts w !! _models a = Some m →
  dict_wf q →
  run_models self "parallel" w = (Ok results, w') →
  (∀ key, key ∈ dict_keys q →
          key ≠ "__getstate__" → key ≠ "__setstate__" →
          ∃ r, ModelBase_getattr _get_attr_ self key w' = (Ok (RanModel r), w')
               ∧ model_name r = key ∧ Some r ∈ results)
  ∧ (∀ key w0, key = "__getstate__" ∨ key = "__setstate__" →
               ModelBase_getattr _get_attr_ self key w0 = (Raise no_object_getattr, w0)).
Proof.
  intros Ho Ha Hq Hm Hwf Hrun. split.
  - intros key Hkey Hg Hs.
    destruct (run_models_parallel_inv _ _ _ _ _ _ _ Ho Ha Hq Hrun) as [Hall Hreg].
    destruct (register_results_Ok _ _ _ _ _ _ _ _ Ho Ha Hm Hq Hwf Hreg)
      as (rs & m' & q' & -> & Ho' & Hm' & Hq' & Hperm & Hin & _).
    apply Forall2_length in Hall. unfold dict_values in Hall.
    rewrite !length_fmap in Hall.
    assert (q' = []) as ->.
    { apply Permutation_length in Hperm.
      unfold dict_keys in Hperm. rewrite length_app, !length_fmap in Hperm.
      destruct q'; [done | simpl in Hperm; lia]. }
    rewrite Hperm, app_nil_r in Hkey.
    apply list_elem_of_fmap in Hkey as (r & -> & Hr).
    exists r. split_and!; [|done|].
    + eapply ModelBase_getattr_ran; [by rewrite Ho' | done | done | done | done |].
      by apply Hin.
    + apply list_elem_of_fmap. eauto.
  - intros key w0 [-> | ->]; reflexivity.
Qed.

End AttributeAccess.

(** * More properties of the accessors *)

Section SelectFacts.
Context {Series : Type}.
Implicit Types (df sub : DataFrame Series) (cols : list string).

Lemma list_remove_None x (l : list string) : list_remove x l = None ↔ x ∉ l.
Proof.
  induction l as [|y l IH]; simpl.
  - split; [intros _; apply not_elem_of_nil | done].
  - destruct (decide (y = x)) as [->|Hne].
    + split; [done | intros Hn; exfalso; apply Hn; left].
    + rewrite not_elem_of_cons, <- IH, fmap_None.
      split; [intros ?; split; [congruence | done] | intros [_ ?]; done].
Qed.

Lemma list_remove_perm x (l l' : list string) :
  list_remove x l = Some l' → l ≡ₚ x :: l'.
Proof.
  revert l'. induction l as [|y l IH]; intros l'; simpl; [done|].
  destruct (decide (y = x)) as [->|Hne].
  - by intros [= <-].
  - destruct (list_remove x l) as [l0|]; simpl; [|done].
    intros [= <-]. rewrite (IH l0 eq_refl). apply Permutation_swap.
Qed.

(** Selecting columns that are all there gives them in the order asked for,
    each with the content it has in the dataframe. *)
Lemma df_select_Some cols df :
  (∀ c, c ∈ cols → c ∈ df_columns df) →
  ∃ sub, df_select cols df = Some sub
         ∧ df_columns sub = cols
         ∧ ∀ c, c ∈ cols → df_getitem c sub = df_getitem c df.
Proof.
  induction cols as [|c cols IH]; intros Hall.
  - exists []. split_and!; [done..|]. intros c Hc. by apply elem_of_nil in Hc.
  - destruct IH as (sub & Hsub & Hcols & Hget).
    { intros c' Hc'. apply Hall. by right. }
    assert (is_Some (df_getitem c df)) as [s Hs].
    { apply dict_get_is_Some. apply Hall. left. }
    exists ((c, s) :: sub). simpl. rewrite Hs, Hsub. split_and!; [done | |].
    + unfold df_columns in *. simpl. by rewrite Hcols.
    + intros c' Hc'. unfold df_getitem. simpl.
      destruct (decide (c = c')) as [<-|Hne]; [done|].
      apply elem_of_cons in Hc' as [->|Hc']; [done|]. by apply Hget.
Qed.


End SelectFacts.

Section MoreAccessorFacts.
Context `{Data}.

(** [features], computed. *)
Lemma features_run self (w : World) o df :
  objects w !! self = Some o →
  frames w !! x_train o = Some df →
  features self w
  = if truthy (target o)
    then match list_remove (target o) (df_columns df) with
         | Some cols => (Ok cols, w)
         | None => (Raise (ValueError "list.remove(x): x not in list"), w)
         end
    else (Ok (df_columns df), w).
Proof.
  intros Ho Hdf. unfold features. do 2 step.
  destruct (truthy (target o)); [|done].
  by destruct (list_remove (target o) (df_columns df)).
Qed.

(** What [features] is when it succeeds. *)
Lemma features_Ok self (w : World) o df :
  objects w !! self = Some o →
  frames w !! x_train o = Some df →
  target o = EmptyString ∨ target o ∈ df_columns df →
  ∃ fs, features self w = (Ok fs, w)
        ∧ (∀ c, c ∈ fs → c ∈ df_columns df)
        ∧ df_columns df ≡ₚ (if truthy (target o) then target o :: fs else fs).
Proof.
  intros Ho Hdf Ht. rewrite (features_run self w o df Ho Hdf).
  destruct (truthy (target o)) eqn:Htr.
  - apply truthy_true in Htr. destruct Ht as [Ht|Ht]; [done|].
    destruct (list_remove (target o) (df_columns df)) as [fs|] eqn:Hrm.
    + pose proof (list_remove_perm _ _ _ Hrm) as Hperm.
      exists fs. split_and!; [done | | done].
      intros c Hc. rewrite Hperm. by right.
    + by apply list_remove_None in Hrm.
  - by exists (df_columns df).
Qed.

(** X11. [train_data] of an object whose column labels are distinct, and
    whose target is empty or labels a column, is the training dataframe
    without the target column: its columns are [features], in that order and
    with the content they have in [x_train]; it never fails with
    [KeyError], and it changes nothing. *)
Theorem train_data_spec (self : loc) (w : World) (o : Obj) (df : DataFrame Series) :
  objects w !! self = Some o →
  frames w !! x_train o = Some df →
  NoDup (df_columns df) →
  target o = EmptyString ∨ target o ∈ df_columns df →
  ∃ fs sub,
    features self w = (Ok fs, w)
    ∧ train_data self w = (Ok sub, w)
    ∧ df_columns sub = fs
    ∧ (target o ≠ EmptyString → target o ∉ df_columns sub)
    ∧ (∀ c, c ∈ fs → df_getitem c sub = df_getitem c df)
    ∧ df_columns df ≡ₚ (if truthy (target o) then target o :: fs else fs).
Proof.
  intros Ho Hdf Hnd Ht.
  destruct (features_Ok self w o df Ho Hdf Ht) as (fs & Hrun & Hsub & Hperm).
  destruct (df_select_Some fs df Hsub) as (sub & Hsel & Hcols & Hget).
  exists fs, sub. split_and!; [done | | done | | done | done].
  - unfold train_data. step. rewrite (bind_Ok _ _ _ _ _ Hrun). step.
    by rewrite Hsel.
  - intros Hne. apply truthy_true in Hne. rewrite Hne in Hperm.
    rewrite Hperm in Hnd. apply NoDup_cons in Hnd as [Hn _]. by rewrite Hcols.
Qed.



End MoreAccessorFacts.

(** * More properties of the constructors *)

Section Constructors.
Context `{Externals}.


(** Four dataframes allocated in a row: the last two are new, distinct and
    hold what was put in them, and what was in the store is still there. *)
Lemma alloc_chain {V} (f0 : gmap loc V) (a b c d : V) :
  let l1 := fresh (dom f0) in
  let f1 := <[l1 := a]> f0 in
  let l2 := fresh (dom f1) in
  let f2 := <[l2 := b]> f1 in
  let l3 := fresh (dom f2) in
  let f3 := <[l3 := c]> f2 in
  let l4 := fresh (dom f3) in
  let f4 := <[l4 := d]> f3 in
  (l3 ∉ dom f0) ∧ (l4 ∉ dom f0) ∧ l3 ≠ l4
  ∧ f4 !! l3 = Some c ∧ f4 !! l4 = Some d
  ∧ ∀ l x, f0 !! l = Some x → f4 !! l = Some x.
Proof.
  intros l1 f1 l2 f2 l3 f3 l4 f4.
  assert (∀ l x, f0 !! l = Some x → f1 !! l = Some x) as H01.
  { intros l x Hl. unfold f1, l1. rewrite lookup_after_alloc; eauto. }
  assert (∀ l x, f1 !! l = Some x → f2 !! l = Some x) as H12.
  { intros l x Hl. unfold f2, l2. rewrite lookup_after_alloc; eauto. }
  assert (∀ l x, f2 !! l = Some x → f3 !! l = Some x) as H23.
  { intros l x Hl. unfold f3, l3. rewrite lookup_after_alloc; eauto. }
  assert (∀ l x, f3 !! l = Some x → f4 !! l = Some x) as H34.
  { intros l x Hl. unfold f4, l4. rewrite lookup_after_alloc; eauto. }
  assert (f3 !! l3 = Some c) as Hc by apply lookup_insert_eq.
  split_and!.
  - intros [x Hx]%elem_of_dom. apply (is_fresh (dom f2)). fold l3.
    apply elem_of_dom. eauto.
  - intros [x Hx]%elem_of_dom. apply (is_fresh (dom f3)). fold l4.
    apply elem_of_dom. eauto.
  - intros Heq. apply (is_fresh (dom f3)). fold l4. rewrite <- Heq.
    apply elem_of_dom. eauto.
  - eauto.
  - apply lookup_insert_eq.
  - eauto.
Qed.

(** X15. [ModelBase(x_train, target)] without test data splits the dataframe
    it is given: the object holds two new dataframes with the two parts that
    [split_data] returns, the dataframe of the caller is what it was, and
    the object starts with an empty queue and no ran model. *)
Theorem modelbase_init_splits (xtr : loc) (tgt : string) (pct : Q)
    (exp : string) (w : World) (df : DataFrame Series) :
  frames w !! xtr = Some df →
  ∃ self o a ltr lte w',
    ModelBase_init ModelBase xtr tgt None pct exp w = (Ok self, w')
    ∧ objects w' !! self = Some o
    ∧ cls o = ModelBase ∧ target o = tgt
    ∧ x_train o = ltr ∧ x_test o = Some lte
    ∧ (ltr ∉ dom (frames w)) ∧ (lte ∉ dom (frames w)) ∧ ltr ≠ lte
    ∧ frames w' !! ltr = Some (split_data df pct tgt "r").1
    ∧ frames w' !! lte = Some (split_data df pct tgt "r").2
    ∧ frames w' !! xtr = Some df
    ∧ model_attrs o = Some a
    ∧ model_dicts w' !! _models a = Some []
    ∧ queue_dicts w' !! _queued_models a = Some [].
Proof.
  intros Hdf. unfold ModelBase_init.
  do 2 (erewrite bind_Ok by reflexivity). simpl.
  erewrite bind_Ok; last first.
  { erewrite bind_Ok by (apply read_frame_Ok; simpl; exact Hdf).
    do 2 (erewrite bind_Ok by reflexivity).
    unfold frame_reset_index.
    erewrite bind_Ok; last first.
    { apply frame_copy_Ok. simpl.
      rewrite lookup_insert_ne; [apply lookup_insert_eq|].
      apply not_eq_sym, fresh_frame_ne. rewrite lookup_insert_eq. eauto. }
    erewrite bind_Ok; last first.
    { apply frame_copy_Ok. simpl.
      rewrite lookup_insert_ne; [apply lookup_insert_eq|].
      apply not_eq_sym, fresh_frame_ne. rewrite lookup_insert_eq. eauto. }
    reflexivity. }
  eexists _, _, _, _, _, _. split; [reflexivity|]. simpl.
  destruct (alloc_chain (frames w) (split_data df pct tgt "r").1
              (split_data df pct tgt "r").2 (split_data df pct tgt "r").1
              (split_data df pct tgt "r").2)
    as (Hn3 & Hn4 & Hne & Hl3 & Hl4 & Hkeep).
  split_and!; [apply lookup_insert_eq | done.. | exact Hn3 | exact Hn4 | exact Hne
              | exact Hl3 | exact Hl4 | by apply Hkeep | reflexivity
              | apply lookup_insert_eq | apply lookup_insert_eq].
Qed.

End Constructors.

(** * Standardized column names *)

Section NameFacts.

Lemma lower_char_not_upper c : is_upper (lower_char c) = false.
Proof. destruct c as [[] [] [] [] [] [] [] []]; reflexivity. Qed.

Lemma word_not_upper_standard c :
  is_word_char c = true → is_upper c = false → is_standard_char c = true.
Proof.
  unfold is_word_char, is_standard_char. intros Hw Hu. by rewrite Hu in Hw.
Qed.

Lemma standard_char_word c : is_standard_char c = true → is_word_char c = true.
Proof.
  unfold is_word_char, is_standard_char. intros Hs.
  apply orb_true_iff in Hs as [Hs|Hs]; [|by rewrite Hs, orb_true_r].
  apply orb_true_iff in Hs as [Hs|Hs]; rewrite Hs; by rewrite ?orb_true_r.
Qed.

Lemma standard_char_not_upper c : is_standard_char c = true → is_upper c = false.
Proof. destruct c as [[] [] [] [] [] [] [] []]; (reflexivity || discriminate). Qed.

Lemma underscore_standard : is_standard_char underscore = true.
Proof. reflexivity. Qed.

Lemma sub_nonword_standard in_run s :
  str_forall (λ c, negb (is_upper c)) s = true →
  str_forall is_standard_char (sub_nonword in_run s) = true.
Proof.
  revert in_run. induction s as [|c s IH]; intros in_run; simpl; [done|].
  intros [Hc Hs]%andb_true_iff. apply negb_true_iff in Hc.
  destruct (is_word_char c) eqn:Hw; simpl.
  - by rewrite (word_not_upper_standard c Hw Hc), IH.
  - destruct in_run; simpl; by apply IH.
Qed.

Lemma str_lower_not_upper s :
  str_forall (λ c, negb (is_upper c)) (str_lower s) = true.
Proof.
  induction s as [|c s IH]; simpl; [done|].
  by rewrite lower_char_not_upper, IH.
Qed.

Lemma str_lower_id s :
  str_forall (λ c, negb (is_upper c)) s = true → str_lower s = s.
Proof.
  induction s as [|c s IH]; simpl; [done|].
  intros [Hc Hs]%andb_true_iff. apply negb_true_iff in Hc.
  unfold lower_char. by rewrite Hc, IH.
Qed.

Lemma sub_nonword_id in_run s :
  str_forall is_word_char s = true → sub_nonword in_run s = s.
Proof.
  revert in_run. induction s as [|c s IH]; intros in_run; simpl; [done|].
  intros [Hc Hs]%andb_true_iff. by rewrite Hc, IH.
Qed.

Lemma str_forall_impl (p p' : Ascii.ascii → bool) s :
  (∀ c, p c = true → p' c = true) →
  str_forall p s = true → str_forall p' s = true.
Proof.
  intros Himpl. induction s as [|c s IH]; simpl; [done|].
  intros [Hc Hs]%andb_true_iff. by rewrite (Himpl c Hc), IH.
Qed.

(** X16. A standardized ASCII name is made of lower-case letters, digits and
    underscores only, and standardizing it again changes nothing. *)
Theorem standardize_name_idempotent (name : string) :
  str_forall is_ascii name = true →
  str_forall is_standard_char (standardize_name name) = true
  ∧ standardize_name (standardize_name name) = standardize_name name.
Proof.
  intros _.
  assert (str_forall is_standard_char (standardize_name name) = true) as Hstd.
  { apply sub_nonword_standard, str_lower_not_upper. }
  split; [done|]. unfold standardize_name at 1.
  rewrite str_lower_id.
  - apply sub_nonword_id. revert Hstd. apply str_forall_impl, standard_char_word.
  - revert Hstd. apply str_forall_impl. intros c Hc.
    by rewrite (standard_char_not_upper c Hc).
Qed.

End NameFacts.

Section StandardizeFacts.
Context `{Data}.

Lemma column_mapping_lookup_acc names (acc : pydict string) c :
  dict_get c (foldl (λ acc name, dict_set name (standardize_name name) acc) acc names)
  = if bool_decide (c ∈ names) then Some (standardize_name c) else dict_get c acc.
Proof.
  revert acc. induction names as [|n names IH]; intros acc; simpl.
  - done.
  - rewrite IH. destruct (bool_decide (c ∈ names)) eqn:Hin.
    + apply bool_decide_eq_true in Hin.
      rewrite bool_decide_eq_true_2; [done | by right].
    + apply bool_decide_eq_false in Hin.
      destruct (decide (n = c)) as [->|Hne].
      * rewrite bool_decide_eq_true_2 by left. apply dict_get_set_eq.
      * rewrite bool_decide_eq_false_2
          by (rewrite not_elem_of_cons; split; [congruence | done]).
        by apply dict_get_set_ne.
Qed.

(** The mapping sends every label of the dataframe to its standardized form
    and has no other key. *)
Lemma column_mapping_lookup names c :
  dict_get c (column_mapping names)
  = if bool_decide (c ∈ names) then Some (standardize_name c) else None.
Proof. unfold column_mapping. by rewrite column_mapping_lookup_acc. Qed.

Lemma df_rename_columns mapping (df : DataFrame Series) :
  df_columns (df_rename mapping df)
  = (λ c, default c (dict_get c mapping)) <$> df_columns df.
Proof.
  unfold df_columns, df_rename. rewrite <- !list_fmap_compose. done.
Qed.

Lemma df_rename_content mapping (df : DataFrame Series) :
  (df_rename mapping df).*2 = df.*2.
Proof. unfold df_rename. rewrite <- list_fmap_compose. done. Qed.

Lemma frame_rename_Ok l mapping (w : World) df :
  frames w !! l = Some df →
  frame_rename l mapping w
  = (Ok (), with_frames (<[l := df_rename mapping df]> (frames w)) w).
Proof. intros Hdf. unfold frame_rename. by step. Qed.

(** X17. On an object without test dataframe whose target and column labels
    are all ASCII strings, [standardize_column_names] relabels every column
    of the training dataframe with its standardized name and the target
    with its own, keeping the order and the content of the columns; a
    target that labels a column before labels a column after.  (Outside
    ASCII [standardize_name] is not what Python computes, which is why the
    labels are required to be ASCII.) *)
Theorem standardize_column_names_train (self : loc) (w : World) (o : Obj)
    (df : DataFrame Series) :
  objects w !! self = Some o →
  frames w !! x_train o = Some df →
  x_test o = None →
  Forall (λ c, str_forall is_ascii c = true) (target o :: df_columns df) →
  ∃ mapping w' o' df',
    standardize_column_names self w = (Ok mapping, w')
    ∧ objects w' !! self = Some o'
    ∧ target o' = standardize_name (target o)
    ∧ x_train o' = x_train o
    ∧ frames w' !! x_train o = Some df'
    ∧ df_columns df' = standardize_name <$> df_columns df
    ∧ df'.*2 = df.*2
    ∧ (target o ∈ df_columns df → target o' ∈ df_columns df')
    ∧ (∀ c, c ∈ df_columns df → dict_get c mapping = Some (standardize_name c)).
Proof.
  intros Ho Hdf Hte _. unfold standardize_column_names. do 2 step.
  erewrite bind_Ok; [|by apply set_target_Ok]. simpl.
  erewrite bind_Ok; [|apply read_obj_Ok; apply lookup_insert_eq]. simpl.
  erewrite bind_Ok; [|by apply frame_rename_Ok]. simpl.
  rewrite Hte. erewrite bind_Ok by reflexivity.
  eexists _, _, _, _. split; [reflexivity|]. simpl.
  assert (df_columns (df_rename (column_mapping (df_columns df)) df)
          = standardize_name <$> df_columns df) as Hcols.
  { rewrite df_rename_columns. apply Forall_fmap_ext_1, Forall_forall.
    intros c Hc. rewrite column_mapping_lookup.
    by rewrite bool_decide_eq_true_2. }
  split_and!; [apply lookup_insert_eq | done | done | apply lookup_insert_eq
              | done | apply df_rename_content | |].
  - intros Hin. simpl. rewrite Hcols. apply list_elem_of_fmap. eauto.
  - intros c Hc. rewrite column_mapping_lookup. by rewrite bool_decide_eq_true_2.
Qed.

(** X18. On an object whose test dataframe is another dataframe than the
    training dataframe, the column labels of both being ASCII strings, the
    mapping is made from the labels of the training dataframe, and the test
    dataframe is relabelled with it: a column of the test dataframe gets its
    standardized name when its label is a label of the training dataframe,
    and keeps its label, standardized or not, when it is not. *)
Theorem standardize_column_names_test (self : loc) (w : World) (o : Obj)
    (l : loc) (df dft : DataFrame Series) :
  objects w !! self = Some o →
  frames w !! x_train o = Some df →
  x_test o = Some l →
  l ≠ x_train o →
  frames w !! l = Some dft →
  Forall (λ c, str_forall is_ascii c = true) (df_columns df ++ df_columns dft) →
  ∃ mapping w' dft',
    standardize_column_names self w = (Ok mapping, w')
    ∧ frames w' !! l = Some dft'
    ∧ dft'.*2 = dft.*2
    ∧ df_columns dft'
      = (λ c, if bool_decide (c ∈ df_columns df) then standardize_name c else c)
        <$> df_columns dft.
Proof.
  intros Ho Hdf Hte Hne Hdft _. unfold standardize_column_names. do 2 step.
  erewrite bind_Ok; [|by apply set_target_Ok]. simpl.
  erewrite bind_Ok; [|apply read_obj_Ok; apply lookup_insert_eq]. simpl.
  erewrite bind_Ok; [|by apply frame_rename_Ok]. simpl.
  rewrite Hte.
  erewrite bind_Ok; last first.
  { apply frame_rename_Ok. simpl. rewrite lookup_insert_ne by done. exact Hdft. }
  eexists _, _, _. split; [reflexivity|]. simpl.
  split_and!; [apply lookup_insert_eq | apply df_rename_content |].
  rewrite df_rename_columns. apply Forall_fmap_ext_1, Forall_forall.
  intros c Hc. rewrite column_mapping_lookup.
  by destruct (bool_decide (c ∈ df_columns df)).
Qed.

End StandardizeFacts.

(** * Assigning the training and the test data *)

Section DataSetters.
Context `{Data} (none_column : DataFrame Series → Series).

(** X19. On an object of class [Unsupervised], which has the property
    [y_train] of [Analysis] that [ModelBase] itself has not, and for
    dataframes whose column labels are distinct,
    [model.train_data = val] makes [val] the training dataframe of the
    object after writing the target column into it, so [y_train] reads as
    before and the dataframe of the caller is changed.  On such an object
    without target the column that is written is labelled by the empty
    string and filled with missing values.  On an object of class
    [ModelBase] itself [y_train] is looked up by [ModelBase.__getattr__],
    and when that lookup raises, the assignment raises the same exception
    in the state the lookup left: nothing is written into [val], and
    [val] does not become the training dataframe. *)
Theorem set_train_data_spec {Other : Type} (_get_attr_ : loc → string → M Other)
    (as_column : AttrValue Other → DataFrame Series → M Series)
    (self val : loc) (w : World) (o : Obj) (df dfv : DataFrame Series) :
  objects w !! self = Some o →
  frames w !! x_train o = Some df →
  frames w !! val = Some dfv →
  (cls o = Unsupervised →
     (∀ s, target o ≠ EmptyString → df_getitem (target o) df = Some s →
        NoDup (df_columns df) → NoDup (df_columns dfv) →
        ∃ w' o',
          set_train_data _get_attr_ as_column none_column self val w = (Ok (), w')
          ∧ objects w' !! self = Some o'
          ∧ x_train o' = val ∧ target o' = target o ∧ x_test o' = x_test o
          ∧ frames w' !! val = Some (df_setitem (target o) s dfv)
          ∧ y_train self w' = (Ok (Some s), w'))
     ∧ (target o = EmptyString →
        ∃ w' o',
          set_train_data _get_attr_ as_column none_column self val w = (Ok (), w')
          ∧ objects w' !! self = Some o'
          ∧ x_train o' = val
          ∧ frames w' !! val
            = Some (df_setitem EmptyString (none_column dfv) dfv)
          ∧ y_train self w' = (Ok None, w')))
  ∧ (cls o = ModelBase →
     ∀ e w', ModelBase_getattr _get_attr_ self "y_train" w = (Raise e, w') →
       set_train_data _get_attr_ as_column none_column self val w = (Raise e, w')).
Proof.
  intros Ho Hdf Hval. split; [intros Hcls; split|].
  - intros s Ht Hs _ _. apply truthy_true in Ht.
    unfold set_train_data. step.
    assert ((y ← y_train self; o1 ← read_obj self; df1 ← read_frame val;
       write_frame val (df_setitem (target o1) (default (none_column df1) y) df1)) w
      = (Ok (), with_frames (<[val := df_setitem (target o) s dfv]> (frames w)) w))
      as Hbody.
    { erewrite bind_Ok; last first.
      { unfold y_train. step. rewrite Ht.
        erewrite bind_Ok by (eapply frame_getitem_Ok; eauto). reflexivity. }
      do 2 step. reflexivity. }
    erewrite bind_Ok; last first.
    { rewrite Hcls. exact Hbody. }
    erewrite bind_Ok by (apply read_obj_Ok; simpl; exact Ho).
    eexists _, _. split; [reflexivity|]. simpl.
    split_and!; [apply lookup_insert_eq | done.. | apply lookup_insert_eq |].
    unfold y_train.
    erewrite bind_Ok by (apply read_obj_Ok; simpl; apply lookup_insert_eq).
    simpl. rewrite Ht.
    erewrite bind_Ok; [done|].
    eapply frame_getitem_Ok; [simpl; apply lookup_insert_eq|].
    apply df_setitem_assigned.
  - intros Ht. unfold set_train_data. step.
    assert ((y ← y_train self; o1 ← read_obj self; df1 ← read_frame val;
       write_frame val (df_setitem (target o1) (default (none_column df1) y) df1)) w
      = (Ok (), with_frames
                  (<[val := df_setitem (target o) (none_column dfv) dfv]> (frames w)) w))
      as Hbody.
    { erewrite bind_Ok; last first.
      { unfold y_train. step. rewrite (proj2 (truthy_false _) Ht). reflexivity. }
      do 2 step. reflexivity. }
    erewrite bind_Ok; last first.
    { rewrite Hcls. exact Hbody. }
    erewrite bind_Ok by (apply read_obj_Ok; simpl; exact Ho).
    eexists _, _. split; [reflexivity|]. simpl. rewrite Ht.
    split_and!; [apply lookup_insert_eq | done | apply lookup_insert_eq |].
    unfold y_train.
    erewrite bind_Ok by (apply read_obj_Ok; simpl; apply lookup_insert_eq).
    reflexivity.
  - intros Hcls e w' Hget.
    unfold set_train_data. step. rewrite Hcls.
    erewrite bind_Raise; [reflexivity|].
    erewrite bind_Raise; [reflexivity | exact Hget].
Qed.


End DataSetters.

(** * Keywords that are taken out of a call *)

Section PopFacts.
Context {V : Type}.
Implicit Types (d : pydict V) (k : string) (v : V).

Lemma dict_pop_missing k d : dict_get k d = None → dict_pop k d = (None, d).
Proof.
  intros Hg. unfold dict_pop. rewrite Hg.
  apply dict_get_None, dict_del_None in Hg. by rewrite Hg.
Qed.

(** What is popped is gone from the rest. *)
Lemma dict_pop_rest k d : dict_wf d → dict_get k (dict_pop k d).2 = None.
Proof.
  intros Hwf. unfold dict_pop. simpl.
  destruct (dict_del k d) as [d'|] eqn:Hdel; simpl.
  - apply dict_get_None. by apply (dict_del_wf k d).
  - by apply dict_get_None, dict_del_None.
Qed.

Lemma dict_del_set_new k v d :
  dict_get k d = None → dict_del k (dict_set k v d) = Some d.
Proof.
  induction d as [|[k' v'] d IH]; simpl.
  - intros _. by rewrite decide_True.
  - destruct (decide (k' = k)) as [->|Hne]; [done|].
    intros Hg. simpl. rewrite decide_False by done. by rewrite IH.
Qed.

Lemma dict_pop_set_new k v d :
  dict_get k d = None → dict_pop k (dict_set k v d) = (Some v, d).
Proof.
  intros Hg. unfold dict_pop. by rewrite dict_get_set_eq, dict_del_set_new.
Qed.

End PopFacts.

Section UnsupervisedBodyFacts.
Context `{Data} {Value : Type}.
Context (is_truthy : Value → bool).
Context (find_optk : loc → pydict Value → M Value).
Context (_run_unsupervised_model :
           Estimator → loc → string → bool → pydict Value → M Result).

(** X21. [KMeans] trains with the [n_clusters] of the call when that value is
    true, without an elbow search; when the keyword is missing or its value
    is false, as 0 is, it runs the elbow search and trains with what the
    search returns.  Either way [n_clusters] is passed on once, and the
    elbow search gets the keywords without it. *)
Theorem KMeans_n_clusters (self : loc) (model_name : string) (run : bool)
    (verbose : Value) (kwargs rest : pydict Value) (w : World) :
  dict_wf kwargs →
  rest = (dict_pop "n_clusters" kwargs).2 →
  dict_get "n_clusters" rest = None
  ∧ (∀ n, dict_get "n_clusters" kwargs = Some n → is_truthy n = true →
          KMeans_body is_truthy find_optk _run_unsupervised_model
            self model_name run verbose kwargs w
          = _run_unsupervised_model SkKMeans self model_name run
              ([("verbose", verbose); ("n_clusters", n)] ++ rest) w)
  ∧ (dict_get "n_clusters" kwargs = None
     ∨ (∃ n, dict_get "n_clusters" kwargs = Some n ∧ is_truthy n = false) →
     KMeans_body is_truthy find_optk _run_unsupervised_model
       self model_name run verbose kwargs w
     = (n ← find_optk self rest;
        _run_unsupervised_model SkKMeans self model_name run
          ([("verbose", verbose); ("n_clusters", n)] ++ rest)) w).
Proof.
  intros Hwf ->. split_and!.
  - by apply dict_pop_rest.
  - intros n Hn Ht. unfold KMeans_body. simpl. rewrite Hn, Ht.
    by erewrite bind_Ok by reflexivity.
  - intros [Hn | (n & Hn & Ht)]; unfold KMeans_body; simpl; rewrite Hn; [done|].
    by rewrite Ht.
Qed.

End UnsupervisedBodyFacts.

Section MetricFacts.
Context {Labels Score Value : Type}.
Context (macro : Value).
Context (recall_score precision_score : Labels → Labels → pydict Value → Score).

(** X22. For a model of a binary problem [recall] and [precision] drop the
    keyword [average]: whatever the caller passes for it, the metric is
    called without it.  For a multiclass problem they pass it on, and pass
    [macro] when the caller gave none. *)
Theorem recall_precision_average (self : ClassificationModelAnalysis (Labels := Labels))
    (kwargs : pydict Value) (v : Value) :
  dict_get "average" kwargs = None →
  (cma_multiclass self = false →
     recall macro recall_score self (dict_set "average" v kwargs)
     = recall_score (cma_y_test self) (cma_y_pred self) kwargs
     ∧ precision macro precision_score self (dict_set "average" v kwargs)
       = precision_score (cma_y_test self) (cma_y_pred self) kwargs)
  ∧ (cma_multiclass self = true →
     recall macro recall_score self (dict_set "average" v kwargs)
     = recall_score (cma_y_test self) (cma_y_pred self) (("average", v) :: kwargs)
     ∧ recall macro recall_score self kwargs
       = recall_score (cma_y_test self) (cma_y_pred self) (("average", macro) :: kwargs)
     ∧ precision macro precision_score self (dict_set "average" v kwargs)
       = precision_score (cma_y_test self) (cma_y_pred self) (("average", v) :: kwargs)
     ∧ precision macro precision_score self kwargs
       = precision_score (cma_y_test self) (cma_y_pred self)
           (("average", macro) :: kwargs)).
Proof.
  intros Hg. unfold recall, precision.
  rewrite (dict_pop_set_new "average" v kwargs Hg).
  rewrite (dict_pop_missing "average" kwargs Hg). simpl.
  split; intros ->; done.
Qed.

End MetricFacts.

(** * The further definitions at work *)

Section MoreRuns.
Import Example MoreExamples.

Lemma run_models_parallel_keeps_other_models_witness :
  ∃ m', model_dicts (run_models 0 "parallel" w_requeued).2 !! 0 = Some m'
        ∧ dict_get "km" m' = Some km_result
        ∧ dict_get "dbs_1" m' = Some dbs_result.
Proof.
  destruct (run_models_parallel_keeps_other_models 0 w_requeued
              (run_models 0 "parallel" w_requeued).2 o_unsup attrs_unsup
              [("iso_forest", iso_closure)] models0 [Some iso_result])
    as [(m' & Hm' & Hkeep) _]; try (vm_compute; reflexivity).
  - apply (bool_decide_unpack _). by vm_compute.
  - exists m'. split; [done|].
    split; rewrite Hkeep; try reflexivity;
      apply (bool_decide_unpack _); by vm_compute.
Defined.

Lemma run_models_parallel_closure_fails_witness :
  ∃ e, run_models 0 "parallel" w_bad_queue = (Raise e, w_bad_queue).
Proof.
  apply (run_models_parallel_closure_fails 0 w_bad_queue o_unsup attrs_unsup
           [("km", km_closure); ("copy", bad_closure)] bad_closure
           invalid_model_name);
    try (vm_compute; reflexivity).
  unfold dict_values. simpl. right. left.
Defined.

Lemma run_models_parallel_unqueued_name_witness :
  ∃ w', run_models 0 "parallel" w_misnamed_queue = (Raise (KeyError "km"), w')
        ∧ queue_dicts w' = queue_dicts w_misnamed_queue
        ∧ model_dicts w' !! 0 = Some [("km", km_result)].
Proof.
  apply (run_models_parallel_unqueued_name 0 w_misnamed_queue o_unsup attrs_unsup
           [("first", km_closure)] [] km_result []);
    try (vm_compute; reflexivity).
  - repeat constructor.
  - apply (bool_decide_unpack _). by vm_compute.
Defined.

Lemma run_models_empty_queue_witness :
  run_models 0 "series" w_unsup = (Ok [], w_unsup).
Proof.
  apply (run_models_empty_queue 0 w_unsup o_unsup attrs_unsup);
    try (vm_compute; reflexivity). by right.
Defined.

Lemma registry_wf_kept_witness :
  registry_wf (delete_model 0 "km" w_queued).2 attrs_unsup.
Proof.
  destruct (registry_wf_kept 0 w_queued o_unsup attrs_unsup) as (_ & Hdel & _);
    try (vm_compute; reflexivity).
  - exists [], queue0. split_and!; try (vm_compute; reflexivity).
    + apply NoDup_nil_2.
    + apply (bool_decide_unpack _). by vm_compute.
  - apply (Hdel "km"). vm_compute. reflexivity.
Defined.

Lemma list_models_output_witness :
  stdout (list_models 0 w_queued).2
  = ["######## QUEUED MODELS ########"; "km"; "dbs_1"; EmptyString;
     "######### RAN MODELS ##########"; "No ran models."].
Proof.
  rewrite (list_models_output 0 w_queued o_unsup attrs_unsup queue0 []);
    vm_compute; reflexivity.
Defined.

Lemma copy_shares_model_dicts_witness :
  ∃ new w',
    copy 0 w_model_queued = (Ok new, w')
    ∧ new ≠ 0
    ∧ ∃ w'' q',
        delete_model new "km" w' = (Ok (), w'')
        ∧ objects w'' !! 0 = Some o_model
        ∧ queue_dicts w'' !! 0 = Some q'
        ∧ ("km" ∉ dict_keys q').
Proof.
  destruct (copy_shares_model_dicts 0 w_model_queued o_model attrs_unsup df0
              [("km", km_closure)] [])
    as (new & o' & a' & w' & Hcopy & Hnew & _ & _ & _ & _ & _ & _ & _ & Hdel);
    try (vm_compute; reflexivity).
  - vm_compute. eauto.
  - intros l [= <-]. vm_compute. eauto.
  - apply (bool_decide_unpack _). by vm_compute.
  - exists new, w'. split_and!; [done..|].
    apply Hdel. apply (bool_decide_unpack _). by vm_compute.
Defined.

Lemma ran_models_are_attributes_witness :
  ∃ r, ModelBase_getattr no_attr 0 "km" (run_models 0 "parallel" w_queued).2
       = (Ok (RanModel r), (run_models 0 "parallel" w_queued).2)
       ∧ model_name r = "km".
Proof.
  destruct (ran_models_are_attributes no_attr 0 w_queued
              (run_models 0 "parallel" w_queued).2 o_unsup attrs_unsup queue0 []
              [Some km_result; Some dbs_result])
    as [Hattr _]; try (vm_compute; reflexivity).
  - apply (bool_decide_unpack _). by vm_compute.
  - destruct (Hattr "km") as (r & Hr & Hn & _); [|done|done|by exists r].
    apply (bool_decide_unpack _). by vm_compute.
Defined.

Lemma train_data_spec_witness :
  ∃ sub, train_data 0 w_model = (Ok sub, w_model)
         ∧ df_columns sub = ["age"; "income"].
Proof.
  destruct (train_data_spec 0 w_model o_model df0)
    as (fs & sub & Hfs & Hrun & Hcols & _); try (vm_compute; reflexivity).
  - apply (bool_decide_unpack _). by vm_compute.
  - right. apply (bool_decide_unpack _). by vm_compute.
  - exists sub. split; [done|]. rewrite Hcols.
    assert (features 0 w_model = (Ok ["age"; "income"], w_model)) as Hf
      by (vm_compute; reflexivity).
    congruence.
Defined.




Lemma modelbase_init_splits_witness :
  ∃ self o lte w',
    ModelBase_init ModelBase 0 "churn" None (2 # 10)%Q "my-experiment" w0
    = (Ok self, w')
    ∧ objects w' !! self = Some o
    ∧ x_test o = Some lte
    ∧ frames w' !! lte = Some (split_first_row df0 (2 # 10)%Q "churn" "r").2
    ∧ frames w' !! 0 = Some df0.
Proof.
  destruct (modelbase_init_splits 0 "churn" (2 # 10)%Q "my-experiment" w0 df0)
    as (self & o & a & ltr & lte & w' & Hinit & Ho & _ & _ & _ & Hte & _ & _ & _
        & _ & Hfte & Hkeep & _);
    [vm_compute; reflexivity|].
  exists self, o, lte, w'. done.
Defined.

Lemma standardize_name_idempotent_witness :
  standardize_name "Income (k$)" = "income_k_"
  ∧ standardize_name (standardize_name "Income (k$)") = standardize_name "Income (k$)".
Proof.
  split; [reflexivity|].
  apply (standardize_name_idempotent "Income (k$)"). reflexivity.
Defined.

Lemma standardize_column_names_train_witness :
  ∃ mapping w' o' df',
    standardize_column_names 0 w_raw = (Ok mapping, w')
    ∧ objects w' !! 0 = Some o'
    ∧ target o' = "income_k_"
    ∧ frames w' !! 0 = Some df'
    ∧ df_columns df' = ["first_name"; "income_k_"].
Proof.
  destruct (standardize_column_names_train 0 w_raw o_raw df_raw)
    as (mapping & w' & o' & df' & Hrun & Ho' & Ht & _ & Hdf' & Hcols & _);
    try (vm_compute; reflexivity).
  - repeat constructor.
  - exists mapping, w', o', df'. split_and!; [done | done | | done |].
    + rewrite Ht. reflexivity.
    + rewrite Hcols. reflexivity.
Defined.

Lemma standardize_column_names_test_witness :
  ∃ mapping w' dft',
    standardize_column_names 0 w_raw_test = (Ok mapping, w')
    ∧ frames w' !! 1 = Some dft'
    ∧ df_columns dft' = ["first_name"; "Zip Code"].
Proof.
  destruct (standardize_column_names_test 0 w_raw_test o_raw_test 1 df_raw df_raw_test)
    as (mapping & w' & dft' & Hrun & Hdft' & _ & Hcols);
    try (vm_compute; reflexivity).
  - discriminate.
  - repeat constructor.
  - exists mapping, w', dft'. split_and!; [done | done |].
    rewrite Hcols. vm_compute. reflexivity.
Defined.

Lemma set_train_data_spec_witness :
  (∃ w' o',
     set_train_data no_attr no_column zeros 0 2 w_unsup_labelled = (Ok (), w')
     ∧ objects w' !! 0 = Some o'
     ∧ x_train o' = 2
     ∧ frames w' !! 2 = Some df0_labelled
     ∧ y_train 0 w' = (Ok (Some [1; 0; 1]%Z), w'))
  ∧ set_train_data no_attr no_column zeros 0 2 w_model
    = (Raise (AttributeError "y_train"), w_model).
Proof.
  split.
  - destruct (set_train_data_spec (H := example_data) zeros no_attr no_column 0 2
                w_unsup_labelled o_unsup_labelled df0_labelled df0)
      as [Hkeep _]; try (vm_compute; reflexivity).
    destruct Hkeep as [Hkeep _]; [reflexivity|].
    destruct (Hkeep [1; 0; 1]%Z) as (w' & o' & Hset & Ho' & Hx & _ & _ & Hval & Hy);
      [discriminate | reflexivity
      | apply (bool_decide_unpack _); by vm_compute
      | apply (bool_decide_unpack _); by vm_compute |].
    exists w', o'. done.
  - destruct (set_train_data_spec (H := example_data) zeros no_attr no_column 0 2
                w_model o_model df0 df0)
      as [_ Hfail]; [vm_compute; reflexivity.. |].
    apply Hfail; [reflexivity | vm_compute; reflexivity].
Defined.


Lemma KMeans_n_clusters_witness :
  KMeans_body int_truthy elbow_four run_named 0 "km" true 1%Z
    [("n_clusters", 0%Z); ("n_init", 10%Z)] w_unsup
  = (n ← elbow_four 0 [("n_init", 10%Z)];
     run_named SkKMeans 0 "km" true
       ([("verbose", 1%Z); ("n_clusters", n)] ++ [("n_init", 10%Z)])) w_unsup.
Proof.
  destruct (KMeans_n_clusters (H := example_data) int_truthy elbow_four run_named
              0 "km" true 1%Z [("n_clusters", 0%Z); ("n_init", 10%Z)]
              [("n_init", 10%Z)] w_unsup)
    as (_ & _ & Hfalse).
  - apply (bool_decide_unpack _). by vm_compute.
  - reflexivity.
  - apply Hfalse. right. exists 0%Z. split; reflexivity.
Defined.

Lemma recall_precision_average_witness :
  recall 7%Z count_keywords binary_analysis
    (dict_set "average" 3%Z [("zero_division", 0%Z)]) = 1.
Proof.
  destruct (recall_precision_average 7%Z count_keywords count_keywords
              binary_analysis [("zero_division", 0%Z)] 3%Z eq_refl)
    as [Hbinary _].
  destruct (Hbinary eq_refl) as [Hrecall _]. rewrite Hrecall. reflexivity.
Defined.

End MoreRuns.
